(** * pyextron: the Extron telnet client, shallowly embedded

    Source: [src/pyextron/__init__.py].  The module defines the error
    classifier [is_error_response], the login handshake
    [ExtronDevice.attempt_login] / [after_connect] and the command cycle
    [ExtronDevice._run_command_internal] / [run_command].

    Python values are modelled as follows.
    - [str] is a list of Unicode code points ([N]); [bytes] is a list of
      8-bit characters ([ascii]); [str.encode] / [bytes.decode] are strict
      UTF-8 and may fail.
    - A coroutine is a function from the device object to a result (a value
      or a raised exception) and the updated device object: Python keeps
      every mutation made before an exception is raised.
    - The peer is a script of what the socket will deliver; a read that
      would block past the deadline is a [RxStall] entry, which cancels the
      coroutine exactly as [asyncio.wait_for] does when its timer fires.
    - Logging is left out: it reads the device object and changes nothing. *)

From Stdlib Require Import Ascii String.
From Stdlib Require Import List NArith ZArith Bool Lia.
Import ListNotations.

Set Implicit Arguments.

(** ** Text and bytes *)

Module Py.

Definition str := list N.
Definition bytes := list ascii.

(** An ASCII literal of the source as a Python [str]. *)
Definition lit (s : string) : str := map N_of_ascii (list_ascii_of_string s).

(** An ASCII literal of the source as Python [bytes]. *)
Definition blit (s : string) : bytes := list_ascii_of_string s.

Definition CR : ascii := ascii_of_N 13.
Definition LF : ascii := ascii_of_N 10.

(** [str.isspace] for one code point: the table [_PyUnicode_IsWhitespace]. *)
Definition isspace (c : N) : bool :=
  ((9 <=? c) && (c <=? 13) || (28 <=? c) && (c <=? 32)
   || (c =? 133) || (c =? 160) || (c =? 5760)
   || (8192 <=? c) && (c <=? 8202)
   || (c =? 8232) || (c =? 8233) || (c =? 8239) || (c =? 8287)
   || (c =? 12288))%N.

Fixpoint lstrip (s : str) : str :=
  match s with
  | c :: s' => if isspace c then lstrip s' else s
  | [] => []
  end.

Definition rstrip (s : str) : str := rev (lstrip (rev s)).

(** [str.strip()] with no argument. *)
Definition strip (s : str) : str := rstrip (lstrip s).

Definition str_eqb (a b : str) : bool :=
  if list_eq_dec N.eq_dec a b then true else false.

(** *** UTF-8 *)

Definition cont (n : N) : ascii := ascii_of_N (N.lor 128 (N.land n 63)).

Definition encode_char (c : N) : option bytes :=
  (if c <? 128 then Some [ascii_of_N c]
   else if c <? 2048 then Some [ascii_of_N (N.lor 192 (N.shiftr c 6)); cont c]
   else if c <? 65536 then
     if (55296 <=? c) && (c <=? 57343) then None
     else Some [ascii_of_N (N.lor 224 (N.shiftr c 12)); cont (N.shiftr c 6); cont c]
   else if c <? 1114112 then
     Some [ascii_of_N (N.lor 240 (N.shiftr c 18)); cont (N.shiftr c 12);
           cont (N.shiftr c 6); cont c]
   else None)%N.

(** [s.encode()]: [None] stands for [UnicodeEncodeError]. *)
Fixpoint encode (s : str) : option bytes :=
  match s with
  | [] => Some []
  | c :: s' =>
      match encode_char c, encode s' with
      | Some a, Some b => Some (a ++ b)
      | _, _ => None
      end
  end.

Definition in_range (lo hi : N) (b : ascii) : bool :=
  ((lo <=? N_of_ascii b) && (N_of_ascii b <=? hi))%N.

Definition low6 (b : ascii) : N := N.land (N_of_ascii b) 63.

Definition cons_opt (c : N) (r : option str) : option str :=
  match r with Some s => Some (c :: s) | None => None end.

(** [b.decode()]: [None] stands for [UnicodeDecodeError]. *)
Fixpoint decode (b : bytes) : option str :=
  match b with
  | [] => Some []
  | b0 :: t0 =>
      let n0 := N_of_ascii b0 in
      if (n0 <? 128)%N then cons_opt n0 (decode t0)
      else
        match t0 with
        | [] => None
        | b1 :: t1 =>
            if in_range 194 223 b0 then
              if in_range 128 191 b1
              then cons_opt (N.shiftl (N.land n0 31) 6 + low6 b1)%N (decode t1)
              else None
            else
              match t1 with
              | [] => None
              | b2 :: t2 =>
                  if in_range 224 239 b0 then
                    if in_range (if (n0 =? 224)%N then 160 else 128)
                                (if (n0 =? 237)%N then 159 else 191) b1
                       && in_range 128 191 b2
                    then cons_opt (N.shiftl (N.land n0 15) 12
                                   + N.shiftl (low6 b1) 6 + low6 b2)%N (decode t2)
                    else None
                  else
                    match t2 with
                    | [] => None
                    | b3 :: t3 =>
                        if in_range 240 244 b0
                           && in_range (if (n0 =? 240)%N then 144 else 128)
                                       (if (n0 =? 244)%N then 143 else 191) b1
                           && in_range 128 191 b2 && in_range 128 191 b3
                        then cons_opt (N.shiftl (N.land n0 7) 18
                                       + N.shiftl (low6 b1) 12
                                       + N.shiftl (low6 b2) 6 + low6 b3)%N (decode t3)
                        else None
                    end
              end
        end
  end.

End Py.

Import Py.

(** ** The error classifier *)

Module Re.

(** The fragment of Python's [re] syntax that the module's pattern uses:
    a literal character, a character range [[lo-hi]], concatenation and a
    counted repetition [r{n}]. *)
Inductive regex :=
| Lit (c : N)
| Range (lo hi : N)
| Cat (r1 r2 : regex)
| Rep (n : nat) (r : regex).

(** One attempt to match [r] at the head of [s]; the result is what is left
    of [s] after the matched prefix.  The fragment has no alternation and
    no open repetition, so there is nothing to backtrack over. *)
Fixpoint run (r : regex) (s : str) : option str :=
  match r with
  | Lit c =>
      match s with
      | x :: s' => if (x =? c)%N then Some s' else None
      | [] => None
      end
  | Range lo hi =>
      match s with
      | x :: s' => if ((lo <=? x) && (x <=? hi))%N then Some s' else None
      | [] => None
      end
  | Cat r1 r2 =>
      match run r1 s with
      | Some s' => run r2 s'
      | None => None
      end
  | Rep n r' =>
      (fix rep (k : nat) (s0 : str) : option str :=
         match k with
         | O => Some s0
         | S k' =>
             match run r' s0 with
             | Some s1 => rep k' s1
             | None => None
             end
         end) n s
  end.

(** [pattern.match(s)]: anchored at position zero, free at the end. *)
Definition match_ (r : regex) (s : str) : option str := run r s.

End Re.

(** [error_regexp = re.compile("E[0-9]{2}")] *)
Definition error_regexp : Re.regex :=
  Re.Cat (Re.Lit 69) (Re.Rep 2 (Re.Range 48 57)).

(** [def is_error_response(response): return error_regexp.match(response) is not None] *)
Definition is_error_response (response : str) : bool :=
  match Re.match_ error_regexp response with
  | Some _ => true
  | None => false
  end.

(** The spec's wording of the same test: the literal "E", then two decimal
    digits, then anything. *)
Definition is_digit (c : N) : Prop := (48 <= c <= 57)%N.

Definition starts_with_error_code (s : str) : Prop :=
  exists d1 d2 rest, s = 69%N :: d1 :: d2 :: rest /\ is_digit d1 /\ is_digit d2.

(** ** Exceptions and the coroutine monad *)

(** The exception classes that the module raises, catches or lets through. *)
Inductive exn :=
| TimeoutError
| CancelledError
| ConnectionResetError
| BrokenPipeError
| IncompleteReadError
| UnicodeDecodeError
| UnicodeEncodeError
| AttributeError
| RuntimeError (msg : str)
| AuthenticationError (msg : str)
| ResponseError (msg : str).

Inductive result (A : Type) :=
| Ok (a : A)
| Raise (e : exn).
Arguments Ok {A} a.
Arguments Raise {A} e.

(** The two transport failures that [run_command] names in its last
    [except] clause.  Other socket errors and a cancellation from
    outside, which no clause of the module names, are not part of a
    peer's script. *)
Inductive fault := Reset | BrokenPipe.

Definition exn_of_fault (f : fault) : exn :=
  match f with
  | Reset => ConnectionResetError
  | BrokenPipe => BrokenPipeError
  end.

(** What the socket holds for the reader, in arrival order.  The empty
    list is end of stream. *)
Inductive rx :=
| RxByte (b : ascii)
| RxStall
| RxFault (f : fault).

(** What the successive calls of [writer.drain()] will meet.  The empty
    list is a peer that always accepts. *)
Inductive tx :=
| TxDone
| TxStall
| TxFault (f : fault).

(** The open transport: the [StreamReader] / [StreamWriter] pair that
    [asyncio.open_connection] returns, which the base class keeps in
    [self._reader] and [self._writer]. *)
Record connection := mkConnection {
  incoming : list rx;
  outgoing : bytes;
  tx_script : list tx
}.

(** The calls made on the transport, oldest first (ghost state). *)
Inductive event :=
| EvConnect
| EvReadUntil (phrase : str)
| EvWrite (data : bytes)
| EvDrain
| EvReadExactly (n : nat)
| EvDisconnect.

(** The attributes of an [ExtronDevice] object.  [_host], [_port] and
    [_timeout] are set by [super().__init__], [_password] by [__init__].
    Modelled from the spec: the base class [TelnetDevice] (package
    [pytelnetdevice]) is not part of the sources; its connection handle is
    [_conn] (null when disconnected, section 3) and [_ready] tells an
    authenticated session from a merely connected one (section 4.4). *)
Record ExtronDevice := mkDevice {
  _host : str;
  _port : Z;
  _password : str;
  _timeout : Z;
  _conn : option connection;
  _ready : bool;
  events : list event
}.

Definition M (A : Type) : Type := ExtronDevice -> result A * ExtronDevice.

Definition ret {A} (a : A) : M A := fun d => (Ok a, d).

Definition raise {A} (e : exn) : M A := fun d => (Raise e, d).

Definition bind {A B} (m : M A) (k : A -> M B) : M B :=
  fun d =>
    match m d with
    | (Ok a, d') => k a d'
    | (Raise e, d') => (Raise e, d')
    end.

Declare Scope coro_scope.
Delimit Scope coro_scope with coro.
Notation "x <- m ;; k" := (bind m (fun x => k))
  (at level 61, m at next level, right associativity) : coro_scope.
Notation "m ;; k" := (bind m (fun _ => k))
  (at level 61, right associativity) : coro_scope.
Local Open Scope coro_scope.

(** [try: body except ...: handler]; a handler re-raises what it does not
    catch. *)
Definition try_except {A} (body : M A) (handler : exn -> M A) : M A :=
  fun d =>
    match body d with
    | (Ok a, d') => (Ok a, d')
    | (Raise e, d') => handler e d'
    end.

Definition gets {A} (f : ExtronDevice -> A) : M A := fun d => (Ok (f d), d).

Definition log (e : event) : M unit :=
  fun d => (Ok tt, mkDevice (_host d) (_port d) (_password d) (_timeout d)
                            (_conn d) (_ready d) (events d ++ [e])).

Definition set_conn (c : option connection) : M unit :=
  fun d => (Ok tt, mkDevice (_host d) (_port d) (_password d) (_timeout d)
                            c (_ready d) (events d)).

Definition set_ready (b : bool) : M unit :=
  fun d => (Ok tt, mkDevice (_host d) (_port d) (_password d) (_timeout d)
                            (_conn d) b (events d)).

(** [self._reader] / [self._writer]: an attribute access on [None] raises. *)
Definition the_conn : M connection :=
  fun d =>
    match _conn d with
    | Some c => (Ok c, d)
    | None => (Raise AttributeError, d)
    end.

Definition of_option {A} (e : exn) (o : option A) : M A :=
  match o with
  | Some a => ret a
  | None => raise e
  end.

(** ** asyncio *)

(** [asyncio.wait_for(coro, timeout)].  With a deadline that is already
    over the coroutine is cancelled before its first step; otherwise it
    runs until it finishes or the timer cancels it where it is suspended,
    and the cancellation comes out as [TimeoutError]. *)
Definition wait_for {A} (coro : M A) (timeout : Z) : M A :=
  if (timeout <=? 0)%Z then raise TimeoutError
  else
    fun d =>
      match coro d with
      | (Raise CancelledError, d') => (Raise TimeoutError, d')
      | r => r
      end.

(** [StreamWriter.write(data)]: appends to the send buffer, never waits. *)
Definition writer_write (data : bytes) : M unit :=
  c <- the_conn ;;
  log (EvWrite data) ;;
  set_conn (Some (mkConnection (incoming c) (outgoing c ++ data) (tx_script c))).

(** [await StreamWriter.drain()]. *)
Definition writer_drain : M unit :=
  c <- the_conn ;;
  log EvDrain ;;
  match tx_script c with
  | [] => ret tt
  | TxDone :: script => set_conn (Some (mkConnection (incoming c) (outgoing c) script))
  | TxStall :: _ => raise CancelledError
  | TxFault f :: _ => raise (exn_of_fault f)
  end.

Inductive read_outcome :=
| ReadData (data : bytes)
| ReadEof (partial : bytes)
| ReadCancelled
| ReadFault (f : fault).

Fixpoint readexactly_loop (n : nat) (acc : bytes) (input : list rx)
  : read_outcome * list rx :=
  match n with
  | O => (ReadData acc, input)
  | S n' =>
      match input with
      | [] => (ReadEof acc, input)
      | RxByte b :: rest => readexactly_loop n' (acc ++ [b]) rest
      | RxStall :: _ => (ReadCancelled, input)
      | RxFault f :: _ => (ReadFault f, input)
      end
  end.

(** [await StreamReader.readexactly(n)]: [n] bytes, or
    [IncompleteReadError] when the stream ends first. *)
Definition reader_readexactly (n : nat) : M bytes :=
  c <- the_conn ;;
  log (EvReadExactly n) ;;
  let '(out, rest) := readexactly_loop n [] (incoming c) in
  set_conn (Some (mkConnection rest (outgoing c) (tx_script c))) ;;
  match out with
  | ReadData data => ret data
  | ReadEof _ => raise IncompleteReadError
  | ReadCancelled => raise CancelledError
  | ReadFault f => raise (exn_of_fault f)
  end.

(** ** The base class [TelnetDevice] *)

(** [acc.endswith(delim)] *)
Definition endswith (acc delim : bytes) : bool :=
  if list_eq_dec ascii_dec (skipn (length acc - length delim) acc) delim
  then true else false.

Fixpoint read_until_loop (delim : bytes) (acc : bytes) (input : list rx)
  : read_outcome * list rx :=
  match input with
  | [] => (ReadEof acc, input)
  | RxByte b :: rest =>
      if endswith (acc ++ [b]) delim
      then (ReadData (firstn (length (acc ++ [b]) - length delim) (acc ++ [b])), rest)
      else read_until_loop delim (acc ++ [b]) rest
  | RxStall :: _ => (ReadCancelled, input)
  | RxFault f :: _ => (ReadFault f, input)
  end.

(** Modelled from the spec: [TelnetDevice._read_until] is not part of the
    sources.  Section 6: it reads all bytes up to and including the
    delimiter and returns them as text without the delimiter; section 4.2
    and the annotation [str | None] at its call site in
    [_run_command_internal]: a stream that ends before the delimiter gives
    no data ([None]). *)
Definition _read_until (phrase : str) : M (option str) :=
  c <- the_conn ;;
  log (EvReadUntil phrase) ;;
  delim <- of_option UnicodeEncodeError (encode phrase) ;;
  let '(out, rest) := read_until_loop delim [] (incoming c) in
  set_conn (Some (mkConnection rest (outgoing c) (tx_script c))) ;;
  match out with
  | ReadData data =>
      text <- of_option UnicodeDecodeError (decode data) ;;
      ret (Some text)
  | ReadEof _ => ret None
  | ReadCancelled => raise CancelledError
  | ReadFault f => raise (exn_of_fault f)
  end.

(** Modelled from the spec: [TelnetDevice.disconnect] is not part of the
    sources.  Section 4.4: any state goes to Disconnected, twice is as good
    as once; section 4.2: the connection handle is cleared. *)
Definition disconnect : M unit :=
  log EvDisconnect ;;
  set_conn None ;;
  set_ready false.

(** ** [ExtronDevice] *)

Definition password_prompt : str := lit "Password:".
Definition newline : str := [10%N].
Definition crlf : str := [13%N; 10%N].

Definition auth_failed : exn :=
  AuthenticationError (lit "Authentication failed, probably wrong password").

(** [async def attempt_login(self)].  A call [self._writer.write(x)] first
    looks up [self._writer.write], which raises on a cleared handle, and
    then evaluates [x]; the [logger.debug] lines leave the device alone
    and are left out. *)
Definition attempt_login : M unit :=
  _read_until password_prompt ;;
  _ <- the_conn ;;
  password <- gets _password ;;
  data <- of_option UnicodeEncodeError (encode (password ++ newline)) ;;
  writer_write data ;;
  writer_drain ;;
  resp <- reader_readexactly 10 ;;
  text <- of_option UnicodeDecodeError (decode resp) ;;
  (if str_eqb (strip text) (lit "Password")
   then raise auth_failed
   else ret tt) ;;
  _read_until newline ;;
  ret tt.

(** [async def after_connect(self)] *)
Definition after_connect : M unit :=
  timeout <- gets _timeout ;;
  wait_for attempt_login timeout.

(** [async def _run_command_internal(self, command)] *)
Definition _run_command_internal (command : str) : M (option str) :=
  _ <- the_conn ;;
  data <- of_option UnicodeEncodeError (encode (command ++ newline)) ;;
  writer_write data ;;
  writer_drain ;;
  _read_until crlf.

Definition no_response_error : exn :=
  RuntimeError (lit "Command failed, got no response").
Definition timed_out_error : exn :=
  RuntimeError (lit "Command timed out, disconnecting").
Definition reset_error : exn :=
  RuntimeError (lit "Connection was reset").
Definition response_error (code : str) : exn :=
  ResponseError (lit "Command failed with error code " ++ code).

(** The [except] clauses of [run_command]. *)
Definition run_command_handler (e : exn) : M str :=
  match e with
  | TimeoutError => disconnect ;; raise timed_out_error
  | ConnectionResetError | BrokenPipeError => disconnect ;; raise reset_error
  | _ => raise e
  end.

(** The [try] block of [run_command]. *)
Definition run_command_body (command : str) : M str :=
  timeout <- gets _timeout ;;
  response <- wait_for (_run_command_internal command) timeout ;;
  match response with
  | None => raise no_response_error
  | Some response =>
      let response := strip response in
      if is_error_response response
      then raise (response_error response)
      else ret response
  end.

(** [async def run_command(self, command)] *)
Definition run_command (command : str) : M str :=
  try_except (run_command_body command) run_command_handler.

(** [async def query_model_name(self)] *)
Definition query_model_name : M str := run_command (lit "1I").

(** Modelled from the spec: [TelnetDevice.connect] is not part of the
    sources.  Section 4.4: it opens the transport, runs the handshake and
    makes the session Ready; when the handshake fails it forces the
    transport closed and surfaces the failure (section 4.1 for a timeout,
    section 3 for any fatal error). *)
Definition connect (transport : connection) : M unit :=
  log EvConnect ;;
  set_conn (Some transport) ;;
  try_except after_connect (fun e => disconnect ;; raise e) ;;
  set_ready true.

(** ** Session states (spec, section 4.4) *)

Inductive session := Disconnected | Connected | Ready.

Definition state_of (d : ExtronDevice) : session :=
  match _conn d with
  | None => Disconnected
  | Some _ => if _ready d then Ready else Connected
  end.

(** The events that a run added to the trace. *)
Definition new_events (before after : ExtronDevice) : list event :=
  skipn (length (events before)) (events after).

Definition is_write (e : event) : bool :=
  match e with EvWrite _ => true | _ => false end.

Definition is_disconnect (e : event) : bool :=
  match e with EvDisconnect => true | _ => false end.

Definition writes (l : list event) : list event := filter is_write l.

Definition disconnects (l : list event) : nat := length (filter is_disconnect l).

(** A peer that has been sent nothing yet and will say [data], then
    whatever [then_] holds. *)
Definition peer (data : bytes) (then_ : list rx) : connection :=
  mkConnection (map RxByte data ++ then_) [] [].

Definition device (password : str) (timeout : Z) (c : option connection) (ready : bool)
  : ExtronDevice :=
  mkDevice (lit "extron.local") 23 password timeout c ready [].

(** The device object after more traffic on the same open transport:
    the handle now holds [c] and [evs] were appended to the trace. *)
Definition touch (d : ExtronDevice) (c : connection) (evs : list event) : ExtronDevice :=
  mkDevice (_host d) (_port d) (_password d) (_timeout d) (Some c) (_ready d)
           (events d ++ evs).

(** The device object after [disconnect]. *)
Definition dropped (d : ExtronDevice) : ExtronDevice :=
  mkDevice (_host d) (_port d) (_password d) (_timeout d) None false
           (events d ++ [EvDisconnect]).

(** [data] ends with [delim] and no shorter non-empty prefix of it does:
    a reader that looks for [delim] after every byte stops exactly at the
    end of [data]. *)
Definition first_match (delim data : bytes) : Prop :=
  data <> [] /\ endswith data delim = true /\
  forall k, 0 < k < length data -> endswith (firstn k data) delim = false.

(** The next [drain()] returns normally. *)
Definition drain_ready (c : connection) : bool :=
  match tx_script c with
  | [] | TxDone :: _ => true
  | _ => false
  end.

(** The exceptions of the transport and codec layer: none of them is one
    of the module's own [RuntimeError], [AuthenticationError] or
    [ResponseError], and none is the [TimeoutError] of [wait_for]. *)
Definition io_exn (e : exn) : bool :=
  match e with
  | CancelledError | ConnectionResetError | BrokenPipeError
  | IncompleteReadError | UnicodeDecodeError | UnicodeEncodeError
  | AttributeError => true
  | _ => false
  end.

Definition raises_only {A} (P : exn -> bool) (r : result A) : Prop :=
  match r with
  | Ok _ => True
  | Raise e => P e = true
  end.

(** The transport calls of a complete handshake, in order. *)
Definition login_steps (wire : bytes) : list event :=
  [EvReadUntil password_prompt; EvWrite wire; EvDrain; EvReadExactly 10;
   EvReadUntil newline].

(** The exceptions that can come out of the timed command cycle
    [wait_for(_run_command_internal(command), timeout)]. *)
Definition cycle_exn (e : exn) : bool :=
  match e with
  | TimeoutError | ConnectionResetError | BrokenPipeError
  | UnicodeDecodeError | UnicodeEncodeError | AttributeError => true
  | _ => false
  end.

(** The timed command cycle, the argument of [await] in [run_command]. *)
Definition command_cycle (command : str) (d : ExtronDevice)
  : result (option str) * ExtronDevice :=
  wait_for (_run_command_internal command) (_timeout d) d.

(** [d'] is [d] after some traffic that never closed the transport. *)
Inductive same_session (d : ExtronDevice) : ExtronDevice -> Prop :=
| same_closed : _conn d = None -> same_session d d
| same_open c c' evs :
    _conn d = Some c -> disconnects evs = 0 -> same_session d (touch d c' evs).

(** The two failures after which [run_command] has disconnected. *)
Definition is_fatal (r : result str) : bool :=
  match r with
  | Raise (RuntimeError msg) =>
      str_eqb msg (lit "Command timed out, disconnecting")
      || str_eqb msg (lit "Connection was reset")
  | _ => false
  end.

(** What [attempt_login] sends: the encoded [f"{self._password}\n"]
    (empty when the password cannot be encoded and nothing is sent). *)
Definition wire_of (d : ExtronDevice) : bytes :=
  match encode (_password d ++ newline) with
  | Some wire => wire
  | None => []
  end.

(** [attempt_login] after its first line: everything from the write of
    the password on. *)
Definition login_tail : M unit :=
  _ <- the_conn ;;
  password <- gets _password ;;
  data <- of_option UnicodeEncodeError (encode (password ++ newline)) ;;
  writer_write data ;;
  writer_drain ;;
  resp <- reader_readexactly 10 ;;
  text <- of_option UnicodeDecodeError (decode resp) ;;
  (if str_eqb (strip text) (lit "Password")
   then raise auth_failed
   else ret tt) ;;
  _read_until newline ;;
  ret tt.

(** How a handshake may end: normally, with the authentication failure,
    or with an exception of the transport and codec layer. *)
Definition login_end (k : nat) (r : result unit) : Prop :=
  match r with
  | Ok _ => k = 5
  | Raise (AuthenticationError msg) =>
      k = 4 /\ msg = lit "Authentication failed, probably wrong password"
  | Raise e => io_exn e = true /\ k <= 5
  end.

(** The device object once [connect] has opened [transport]. *)
Definition opened (d : ExtronDevice) (transport : connection) : ExtronDevice :=
  mkDevice (_host d) (_port d) (_password d) (_timeout d) (Some transport) (_ready d)
           (events d ++ [EvConnect]).

(** ** Sample peers *)

(** A session that is Ready on a peer that answers "SSP-001\r\n". *)
Definition ssp_device : ExtronDevice :=
  device (lit "extron") 5 (Some (peer (blit "SSP-001" ++ [CR; LF]) [])) true.

(** A peer that answers "E01\r\n". *)
Definition e01_device : ExtronDevice :=
  device (lit "extron") 5 (Some (peer (blit "E01" ++ [CR; LF]) [])) true.

(** A peer that goes quiet in the middle of its answer. *)
Definition stalled_device : ExtronDevice :=
  device (lit "extron") 5 (Some (peer (blit "SSP") [RxStall])) true.

(** A peer that resets the connection instead of answering. *)
Definition reset_device : ExtronDevice :=
  device (lit "extron") 5 (Some (peer [] [RxFault Reset])) true.

(** A transport whose send side is already broken. *)
Definition broken_device : ExtronDevice :=
  device (lit "extron") 5 (Some (mkConnection [] [] [TxFault BrokenPipe])) true.

(** A peer that has closed its side: end of stream, no byte. *)
Definition silent_device : ExtronDevice :=
  device (lit "extron") 5 (Some (peer [] [])) true.

Definition fresh_device : ExtronDevice := device (lit "extron") 5 None false.

Definition greeting : bytes :=
  [CR; LF] ++ blit "(c) Copyright 2012, Extron Electronics" ++ [CR; LF]
  ++ blit "Password:".

(** A peer that takes the password: "\r\nLogin Administrator\r\n". *)
Definition accepting_peer : connection :=
  peer (greeting ++ [CR; LF] ++ blit "Login Administrator" ++ [CR; LF]) [].

(** A peer that asks again: "\r\nPassword:". *)
Definition rejecting_peer : connection :=
  peer (greeting ++ [CR; LF] ++ blit "Password:") [].

(** A peer that prompts and then never answers the password. *)
Definition mute_peer : connection := peer greeting [RxStall].

(** No non-empty prefix of [data] ends with [delim]: a reader that looks
    for [delim] after every byte reads all of [data] and wants more. *)
Definition no_match (delim data : bytes) : Prop :=
  forall k, 0 < k <= length data -> endswith (firstn k data) delim = false.

(** ** The rest of [ExtronDevice] *)

Definition ESC : str := [27%N].

(** [async def query_model_description(self)] *)
Definition query_model_description : M str := run_command (lit "2I").

(** [async def query_firmware_version(self)] *)
Definition query_firmware_version : M str := run_command (lit "Q").

(** [async def query_part_number(self)] *)
Definition query_part_number : M str := run_command (lit "N").

(** [async def query_mac_address(self)] *)
Definition query_mac_address : M str := run_command (ESC ++ lit "CH").

(** [async def query_ip_address(self)] *)
Definition query_ip_address : M str := run_command (ESC ++ lit "CI").

(** [async def reboot(self)] *)
Definition reboot : M unit := run_command (ESC ++ lit "1BOOT") ;; ret tt.

(** ** Numbers as text: [int(s)] and [str(n)] *)

(** What [int] and [str] take from the interpreter rather than from the
    module: the Unicode database's decimal value of a character outside
    ASCII ([Py_UNICODE_TODECIMAL], [None] for -1) and the limit on the
    number of digits of a conversion ([sys.get_int_max_str_digits()], 0
    for no limit, as in interpreters that have none). *)
Record interpreter := mkInterpreter {
  todecimal : N -> option N;
  max_str_digits : nat
}.

(** The decimal numeral of a natural number, most significant digit
    first; [fuel] bounds the number of digits. *)
Fixpoint digits_of (fuel : nat) (n : N) (acc : str) : str :=
  match fuel with
  | O => acc
  | S fuel' =>
      let acc' := (48 + n mod 10)%N :: acc in
      if (n <? 10)%N then acc' else digits_of fuel' (n / 10)%N acc'
  end.

Definition decimal_N (n : N) : str := digits_of (S (N.to_nat (N.log2 n))) n [].

(** The decimal numeral of an integer: "-" before a negative one. *)
Definition decimal (z : Z) : str :=
  match z with
  | Zneg p => 45%N :: decimal_N (Npos p)
  | _ => decimal_N (Z.to_N z)
  end.

(** A conversion of [k] digits is refused when [k] is over the threshold
    of 640 and over a limit that is set. *)
Definition over_limit (py : interpreter) (k : nat) : bool :=
  (640 <? k) && (0 <? max_str_digits py) && (max_str_digits py <? k).

(** [str(n)] for an [int]: [None] stands for [ValueError]. *)
Definition py_str (py : interpreter) (n : Z) : option str :=
  if over_limit py (length (decimal_N (Z.abs_N n))) then None else Some (decimal n).

(** [Py_ISSPACE] *)
Definition c_isspace (c : N) : bool := ((9 <=? c) && (c <=? 13) || (c =? 32))%N.

Definition digit_value (c : N) : option N :=
  if ((48 <=? c) && (c <=? 57))%N then Some (c - 48)%N else None.

(** [_PyUnicode_TransformDecimalAndSpaceToASCII] on a string that is not
    all ASCII: spaces become " ", decimal digits their ASCII digit, and
    the first other character outside ASCII a "?" that ends the string. *)
Fixpoint transform (py : interpreter) (s : str) : str :=
  match s with
  | [] => []
  | ch :: s' =>
      if (ch <? 127)%N then ch :: transform py s'
      else if isspace ch then 32%N :: transform py s'
      else
        match todecimal py ch with
        | Some d => (48 + d)%N :: transform py s'
        | None => [63%N]
        end
  end.

Definition to_ascii (py : interpreter) (s : str) : str :=
  if forallb (fun c => (c <? 128)%N) s then s else transform py s.

Fixpoint skip_space (s : str) : str :=
  match s with
  | c :: s' => if c_isspace c then skip_space s' else s
  | [] => []
  end.

(** The digit loop of [PyLong_FromString] in base 10: digits and single
    underscores; the result is the value, the number of digits, the last
    character read and what is left.  [None] is a doubled underscore. *)
Fixpoint scan (s : str) (prev : N) (digits : nat) (value : N)
  : option (N * nat * N * str) :=
  match s with
  | c :: s' =>
      if (c =? 95)%N then
        if (prev =? 95)%N then None else scan s' c digits value
      else
        match digit_value c with
        | Some v => scan s' c (S digits) (10 * value + v)%N
        | None => Some (value, digits, prev, s)
        end
  | [] => Some (value, digits, prev, [])
  end.

(** The optional sign of a numeral. *)
Definition split_sign (a : str) : bool * str :=
  match a with
  | c :: t =>
      if (c =? 43)%N then (false, t)
      else if (c =? 45)%N then (true, t)
      else (false, a)
  | [] => (false, [])
  end.

Definition starts_with (x : N) (a : str) : bool :=
  match a with
  | c :: _ => (c =? x)%N
  | [] => false
  end.

(** [int(s)] for a [str], as [PyLong_FromUnicodeObject] computes it in
    base 10: [None] stands for [ValueError]. *)
Definition py_int (py : interpreter) (s : str) : option Z :=
  let '(negative, a) := split_sign (skip_space (to_ascii py s)) in
  if starts_with 95 a then None
  else
    match scan a 0 0 0 with
    | None => None
    | Some (value, digits, prev, rest) =>
        if (prev =? 95)%N then None
        else if (digits =? 0)%nat then None
        else if over_limit py digits then None
        else
          match skip_space rest with
          | [] => Some (if negative then (- Z.of_N value)%Z else Z.of_N value)
          | _ => None
          end
    end.

(** The value of a run of ASCII digits read after the value [v]. *)
Definition digits_value (ds : str) (v : N) : N :=
  fold_left (fun v c => (10 * v + (c - 48))%N) ds v.

(** ** The device wrappers *)

(** The outcome of a wrapper method: what [run_command] gives, or the
    [ValueError] of a failed [int(...)] or [str(...)]. *)
Inductive reply (A : Type) :=
| Returns (a : A)
| Raises (e : exn)
| RaisesValueError.
Arguments Returns {A} a.
Arguments Raises {A} e.
Arguments RaisesValueError {A}.

Definition W (A : Type) : Type := ExtronDevice -> reply A * ExtronDevice.

(** [int(await coro)] *)
Definition int_of (py : interpreter) (coro : M str) : W Z :=
  fun d =>
    match coro d with
    | (Ok response, d') =>
        (match py_int py response with
         | Some n => Returns n
         | None => RaisesValueError
         end, d')
    | (Raise e, d') => (Raises e, d')
    end.

(** [await self._device.run_command(f"{n}" + suffix)] *)
Definition send_number (py : interpreter) (n : Z) (suffix : str) : W unit :=
  fun d =>
    match py_str py n with
    | None => (RaisesValueError, d)
    | Some text =>
        match run_command (text ++ suffix) d with
        | (Ok _, d') => (Returns tt, d')
        | (Raise e, d') => (Raises e, d')
        end
    end.

Module SurroundSoundProcessor.

(** [async def view_input(self)] *)
Definition view_input (py : interpreter) : W Z := int_of py (run_command (lit "$")).

(** [async def select_input(self, input)] *)
Definition select_input (py : interpreter) (input : Z) : W unit :=
  send_number py input (lit "$").

(** [async def mute(self)] *)
Definition mute : M unit := run_command (lit "1Z") ;; ret tt.

(** [async def unmute(self)] *)
Definition unmute : M unit := run_command (lit "0Z") ;; ret tt.

(** [async def is_muted(self)] *)
Definition is_muted : M bool :=
  is_muted <- run_command (lit "Z") ;;
  ret (str_eqb is_muted (lit "1")).

(** [async def get_volume_level(self)] *)
Definition get_volume_level (py : interpreter) : W Z :=
  int_of py (run_command (lit "V")).

(** [async def set_volume_level(self, level)] *)
Definition set_volume_level (py : interpreter) (level : Z) : W unit :=
  send_number py level (lit "V").

(** [async def increment_volume(self)] *)
Definition increment_volume : M unit := run_command (lit "+V") ;; ret tt.

(** [async def decrement_volume(self)] *)
Definition decrement_volume : M unit := run_command (lit "-V") ;; ret tt.

(** [async def get_temperature(self)] *)
Definition get_temperature (py : interpreter) : W Z :=
  int_of py (run_command (ESC ++ lit "20STAT")).

End SurroundSoundProcessor.

Module HDMISwitcher.

(** [async def view_input(self)] *)
Definition view_input (py : interpreter) : W Z := int_of py (run_command (lit "!")).

(** [async def select_input(self, input)] *)
Definition select_input (py : interpreter) (input : Z) : W unit :=
  send_number py input (lit "!").

End HDMISwitcher.

Module DMP64.

(** [async def view_input(self)] *)
Definition view_input (py : interpreter) : W Z := int_of py (run_command (lit "$")).

(** [async def select_input(self, input)] *)
Definition select_input (py : interpreter) (input : Z) : W unit :=
  send_number py input (lit "$").

(** [async def mute(self)] *)
Definition mute : M unit := run_command (lit "1Z") ;; ret tt.

(** [async def unmute(self)] *)
Definition unmute : M unit := run_command (lit "0Z") ;; ret tt.

(** [async def is_muted(self)] *)
Definition is_muted : M bool :=
  is_muted <- run_command (lit "Z") ;;
  ret (str_eqb is_muted (lit "1")).

(** [async def get_volume_level(self)] *)
Definition get_volume_level (py : interpreter) : W Z :=
  int_of py (run_command (lit "V")).

(** [async def set_volume_level(self, level)] *)
Definition set_volume_level (py : interpreter) (level : Z) : W unit :=
  send_number py level (lit "V").

(** [async def increment_volume(self)] *)
Definition increment_volume : M unit := run_command (lit "+V") ;; ret tt.

(** [async def decrement_volume(self)] *)
Definition decrement_volume : M unit := run_command (lit "-V") ;; ret tt.

(** [async def get_temperature(self)] *)
Definition get_temperature (py : interpreter) : W Z :=
  int_of py (run_command (ESC ++ lit "20STAT")).

End DMP64.

(** An interpreter with the usual limit of 4300 digits whose database is
    cut down to ASCII. *)
Definition ascii_interpreter : interpreter := mkInterpreter (fun _ => None) 4300.

(** A peer that answers one [data] line to each of two commands. *)
Definition two_line_device (line1 line2 : bytes) : ExtronDevice :=
  device (lit "extron") 5
         (Some (peer (line1 ++ [CR; LF] ++ line2 ++ [CR; LF]) [])) true.

(** A device object for a peer that answers [line] and CR LF. *)
Definition answering (line : bytes) : ExtronDevice :=
  device (lit "extron") 5 (Some (peer (line ++ [CR; LF]) [])) true.

(** What it means for a wrapper [w] that sends [cmd] to read numbers:
    on a peer whose line strips to the numeral of [n], [w] returns [n]
    and leaves the session open with the line consumed. *)
Definition reads_numbers (py : interpreter) (cmd : str) (w : W Z) : Prop :=
  forall d c wire raw line rest n,
    _conn d = Some c ->
    (0 < _timeout d)%Z ->
    encode (cmd ++ newline) = Some wire ->
    drain_ready c = true ->
    incoming c = map RxByte (raw ++ [CR; LF]) ++ rest ->
    first_match [CR; LF] (raw ++ [CR; LF]) ->
    decode raw = Some line ->
    strip line = decimal n ->
    over_limit py (length (decimal_N (Z.abs_N n))) = false ->
    w d =
    (Returns n,
     touch d (mkConnection rest (outgoing c ++ wire) (tl (tx_script c)))
           [EvWrite wire; EvDrain; EvReadUntil crlf]).

(** A character that cannot start a numeral: ASCII, and neither a sign,
    a digit nor a space of [Py_ISSPACE]. *)
Definition no_numeral_start (x : N) : Prop :=
  (x < 127)%N /\ c_isspace x = false /\ x <> 43%N /\ x <> 45%N
  /\ digit_value x = None.

(** What it means for a wrapper [w] that sends [cmd] to refuse other
    text: on a peer whose line strips to nothing, or to something that
    cannot start a numeral and is no error code, [w] raises [ValueError]
    and leaves the session open with the line consumed. *)
Definition refuses_text (py : interpreter) (cmd : str) (w : W Z) : Prop :=
  forall d c wire raw line rest,
    _conn d = Some c ->
    (0 < _timeout d)%Z ->
    encode (cmd ++ newline) = Some wire ->
    drain_ready c = true ->
    incoming c = map RxByte (raw ++ [CR; LF]) ++ rest ->
    first_match [CR; LF] (raw ++ [CR; LF]) ->
    decode raw = Some line ->
    strip line = [] \/ (exists x t, strip line = x :: t /\ no_numeral_start x
                                    /\ is_error_response (strip line) = false) ->
    w d =
    (RaisesValueError,
     touch d (mkConnection rest (outgoing c ++ wire) (tl (tx_script c)))
           [EvWrite wire; EvDrain; EvReadUntil crlf]).


(** A peer that prompts and hangs up two bytes after the password. *)
Definition hangup_peer : connection := peer (greeting ++ [CR; LF]) [].

(** A peer that prompts, sends ten bytes of banner and hangs up. *)
Definition bannerless_peer : connection :=
  peer (greeting ++ [CR; LF] ++ blit "Login Ad") [].

(** A session with a timeout of zero. *)
Definition impatient_device : ExtronDevice :=
  device (lit "extron") 0 (Some (peer (blit "SSP-001" ++ [CR; LF]) [])) true.

(** A peer that takes the password and then answers one command. *)
Definition session_peer : connection :=
  peer (greeting ++ [CR; LF] ++ blit "Login Administrator" ++ [CR; LF]
        ++ blit "SSP-001" ++ [CR; LF]) [].

(** The spec's wording of the trimming (section 4.2, step 3): [r] is
    [line] without the whitespace around it, that is, [line] is [r]
    between two runs of whitespace and [r] neither starts nor ends with
    a whitespace character. *)
Definition all_space (s : str) : Prop := Forall (fun c => isspace c = true) s.

Definition trimmed (line r : str) : Prop :=
  exists pre post,
    line = pre ++ r ++ post
    /\ all_space pre /\ all_space post
    /\ (forall c t, r = c :: t -> isspace c = false)
    /\ (forall t c, r = t ++ [c] -> isspace c = false).

(** A peer that stalls before it has sent the prompt. *)
Definition stalling_peer : connection := peer (blit "hello") [RxStall].

(** * Properties *)

(** ** The error classifier *)

Section Classifier.

Lemma run_error_regexp (s : str) :
  Re.run error_regexp s =
  match s with
  | e :: d1 :: d2 :: rest =>
      if ((e =? 69) && ((48 <=? d1) && (d1 <=? 57)) && ((48 <=? d2) && (d2 <=? 57)))%N
      then Some rest else None
  | _ => None
  end.
Proof.
  destruct s as [|e [|d1 [|d2 rest]]]; cbn; try reflexivity.
  - destruct (e =? 69)%N; reflexivity.
  - destruct (e =? 69)%N; cbn; [|reflexivity].
    destruct ((48 <=? d1) && (d1 <=? 57))%N; reflexivity.
  - destruct (e =? 69)%N; cbn; [|reflexivity].
    destruct ((48 <=? d1) && (d1 <=? 57))%N; cbn; [|reflexivity].
    destruct ((48 <=? d2) && (d2 <=? 57))%N; reflexivity.
Qed.

Lemma digit_test (c : N) : ((48 <=? c) && (c <=? 57))%N = true <-> is_digit c.
Proof.
  unfold is_digit. rewrite andb_true_iff, !N.leb_le. reflexivity.
Qed.

(** C4. [is_error_response s] holds exactly when [s] starts, at position
    zero, with "E" and two decimal digits; what follows the digits is
    free.  "E01extra" is an error; the empty string, "OK", "123" and
    "Err01" are not. *)
Theorem is_error_response_spec :
  (forall s, is_error_response s = true <-> starts_with_error_code s)
  /\ is_error_response (lit "E01extra") = true
  /\ is_error_response (lit "") = false
  /\ is_error_response (lit "OK") = false
  /\ is_error_response (lit "123") = false
  /\ is_error_response (lit "Err01") = false.
Proof.
  split; [|repeat split; reflexivity].
  intro s. unfold is_error_response, Re.match_, starts_with_error_code.
  rewrite run_error_regexp. split.
  - destruct s as [|e [|d1 [|d2 rest]]]; try discriminate.
    destruct (_ && _ && _)%N eqn:T; [|discriminate]. intros _.
    apply andb_true_iff in T as [T Hd2]. apply andb_true_iff in T as [He Hd1].
    apply N.eqb_eq in He. subst e.
    exists d1, d2, rest. rewrite <- !digit_test. auto.
  - intros (d1 & d2 & rest & -> & Hd1 & Hd2).
    apply digit_test in Hd1, Hd2. rewrite Hd1, Hd2. reflexivity.
Qed.

End Classifier.

(** ** [str.strip] *)

Lemma lstrip_head (s : str) :
  lstrip s = [] \/ exists c t, lstrip s = c :: t /\ isspace c = false.
Proof.
  induction s as [|c s IH]; cbn; [now left|].
  destruct (isspace c) eqn:E; [exact IH | right; eauto].
Qed.

Lemma lstrip_fixed (c : N) (t : str) : isspace c = false -> lstrip (c :: t) = c :: t.
Proof. intro E. cbn. rewrite E. reflexivity. Qed.

Lemma lstrip_snoc (l : str) (c : N) :
  isspace c = false -> exists l', lstrip (l ++ [c]) = l' ++ [c].
Proof.
  intro E. induction l as [|x l IH]; cbn.
  - rewrite E. now exists [].
  - destruct (isspace x); [exact IH | now exists (x :: l)].
Qed.

Lemma rstrip_head (c : N) (t : str) :
  isspace c = false -> exists t', rstrip (c :: t) = c :: t'.
Proof.
  intro E. unfold rstrip. cbn [rev].
  destruct (@lstrip_snoc (rev t) c E) as (l' & ->).
  rewrite rev_app_distr. cbn. eauto.
Qed.

Lemma rstrip_idempotent (s : str) : rstrip (rstrip s) = rstrip s.
Proof.
  unfold rstrip. rewrite rev_involutive. f_equal.
  destruct (lstrip_head (rev s)) as [->|(c & t & -> & E)]; [reflexivity|].
  apply (@lstrip_fixed c t E).
Qed.

Lemma lstrip_spaces (pre s : str) : all_space pre -> lstrip (pre ++ s) = lstrip s.
Proof.
  induction 1 as [|c pre Hc _ IH]; [reflexivity|].
  cbn. rewrite Hc. exact IH.
Qed.

Lemma lstrip_split (s : str) : exists pre, s = pre ++ lstrip s /\ all_space pre.
Proof.
  induction s as [|c s (pre & Hs & Hpre)]; cbn.
  - exists []. split; [reflexivity | constructor].
  - destruct (isspace c) eqn:E.
    + exists (c :: pre). split; [cbn; congruence | now constructor].
    + exists []. split; [reflexivity | constructor].
Qed.

Lemma all_space_rev (s : str) : all_space s -> all_space (rev s).
Proof. apply Forall_rev. Qed.

Lemma rstrip_spaces (s post : str) : all_space post -> rstrip (s ++ post) = rstrip s.
Proof.
  intro H. unfold rstrip. rewrite rev_app_distr, lstrip_spaces; [reflexivity|].
  apply all_space_rev, H.
Qed.

Lemma rstrip_split (s : str) : exists post, s = rstrip s ++ post /\ all_space post.
Proof.
  destruct (lstrip_split (rev s)) as (pre & Hs & Hpre).
  exists (rev pre). split; [|apply all_space_rev, Hpre].
  unfold rstrip. rewrite <- rev_app_distr, <- Hs, rev_involutive. reflexivity.
Qed.

Lemma rstrip_last (s t : str) (c : N) : rstrip s = t ++ [c] -> isspace c = false.
Proof.
  unfold rstrip. intro H.
  destruct (lstrip_head (rev s)) as [E|(x & u & E & Hx)]; rewrite E in H; cbn in H.
  - destruct t; discriminate H.
  - apply app_inj_tail in H as [_ <-]. exact Hx.
Qed.

Lemma rstrip_clean (r : str) :
  (forall t c, r = t ++ [c] -> isspace c = false) -> rstrip r = r.
Proof.
  intro Hlast. unfold rstrip. destruct (rev r) as [|c t] eqn:E.
  - apply (f_equal (@rev N)) in E. rewrite rev_involutive in E. now subst r.
  - apply (f_equal (@rev N)) in E. rewrite rev_involutive in E. cbn in E.
    rewrite (@lstrip_fixed c t (Hlast (rev t) c E)). cbn. now subst r.
Qed.

(** [strip] does what the spec calls trimming, and nothing else does. *)
Lemma strip_trimmed (line : str) : trimmed line (strip line).
Proof.
  unfold strip.
  destruct (lstrip_split line) as (pre & Hline & Hpre).
  destruct (rstrip_split (lstrip line)) as (post & Hmid & Hpost).
  exists pre, post. split; [congruence|]. split; [exact Hpre|]. split; [exact Hpost|].
  split.
  - intros c t Hr.
    destruct (lstrip_head line) as [E|(x & u & E & Hx)]; rewrite E in Hr.
    + discriminate Hr.
    + destruct (@rstrip_head x u Hx) as (u' & Hu). rewrite Hu in Hr.
      injection Hr as -> _. exact Hx.
  - intros t c Hr. exact (@rstrip_last (lstrip line) t c Hr).
Qed.

Lemma trimmed_strip (line r : str) : trimmed line r -> strip line = r.
Proof.
  intros (pre & post & -> & Hpre & Hpost & Hfirst & Hlast).
  unfold strip. rewrite (@lstrip_spaces pre (r ++ post) Hpre).
  destruct r as [|c t].
  - cbn [app]. rewrite <- (app_nil_r post), (@lstrip_spaces post [] Hpost). reflexivity.
  - rewrite <- app_comm_cons, (@lstrip_fixed c (t ++ post) (Hfirst c t eq_refl)).
    rewrite app_comm_cons, (@rstrip_spaces (c :: t) post Hpost).
    apply rstrip_clean, Hlast.
Qed.

(** Stripping twice is stripping once. *)
Lemma strip_idempotent (s : str) : strip (strip s) = strip s.
Proof.
  unfold strip.
  destruct (lstrip_head s) as [->|(c & t & -> & E)]; [reflexivity|].
  destruct (@rstrip_head c t E) as (t' & Ht).
  rewrite <- (rstrip_idempotent (c :: t)) at 2.
  rewrite Ht, (@lstrip_fixed c t' E). reflexivity.
Qed.


(** ** The transport primitives, one equation each *)

Section Transport.

Variables (d : ExtronDevice) (c : connection).
Hypothesis open : _conn d = Some c.

Lemma touch_nil : touch d c [] = d.
Proof.
  unfold touch. rewrite <- open, app_nil_r. destruct d; reflexivity.
Qed.

Lemma the_conn_run : the_conn d = (Ok c, d).
Proof. unfold the_conn. rewrite open. reflexivity. Qed.

Lemma writer_write_run (data : bytes) :
  writer_write data d =
  (Ok tt, touch d (mkConnection (incoming c) (outgoing c ++ data) (tx_script c))
                [EvWrite data]).
Proof.
  unfold writer_write, bind. rewrite the_conn_run. reflexivity.
Qed.

Lemma writer_drain_run :
  writer_drain d =
  match tx_script c with
  | [] => (Ok tt, touch d c [EvDrain])
  | TxDone :: script =>
      (Ok tt, touch d (mkConnection (incoming c) (outgoing c) script) [EvDrain])
  | TxStall :: _ => (Raise CancelledError, touch d c [EvDrain])
  | TxFault f :: _ => (Raise (exn_of_fault f), touch d c [EvDrain])
  end.
Proof.
  unfold writer_drain, bind. rewrite the_conn_run. cbn.
  unfold touch. rewrite <- open.
  destruct (tx_script c) as [|[| |f] script]; reflexivity.
Qed.

Lemma reader_readexactly_run (n : nat) :
  reader_readexactly n d =
  (match fst (readexactly_loop n [] (incoming c)) with
   | ReadData data => Ok data
   | ReadEof _ => Raise IncompleteReadError
   | ReadCancelled => Raise CancelledError
   | ReadFault f => Raise (exn_of_fault f)
   end,
   touch d (mkConnection (snd (readexactly_loop n [] (incoming c)))
                         (outgoing c) (tx_script c))
         [EvReadExactly n]).
Proof.
  unfold reader_readexactly, bind. rewrite the_conn_run. cbn.
  destruct (readexactly_loop n [] (incoming c)) as [[data|part| |f] rest];
    reflexivity.
Qed.

Lemma read_until_run (phrase : str) :
  _read_until phrase d =
  match encode phrase with
  | None => (Raise UnicodeEncodeError, touch d c [EvReadUntil phrase])
  | Some delim =>
      (match fst (read_until_loop delim [] (incoming c)) with
       | ReadData data =>
           match decode data with
           | Some text => Ok (Some text)
           | None => Raise UnicodeDecodeError
           end
       | ReadEof _ => Ok None
       | ReadCancelled => Raise CancelledError
       | ReadFault f => Raise (exn_of_fault f)
       end,
       touch d (mkConnection (snd (read_until_loop delim [] (incoming c)))
                             (outgoing c) (tx_script c))
             [EvReadUntil phrase])
  end.
Proof.
  unfold _read_until, bind. rewrite the_conn_run. cbn.
  destruct (encode phrase) as [delim|]; cbn.
  - destruct (read_until_loop delim [] (incoming c)) as [[data|part| |f] rest];
      cbn; try reflexivity.
    destruct (decode data); reflexivity.
  - unfold touch. rewrite <- open. reflexivity.
Qed.

End Transport.

Arguments touch_nil [d c] open.
Arguments the_conn_run [d c] open.
Arguments writer_write_run [d c] open data.
Arguments writer_drain_run [d c] open.
Arguments reader_readexactly_run [d c] open n.
Arguments read_until_run [d c] open phrase.

Lemma touch_touch d c1 e1 c2 e2 :
  touch (touch d c1 e1) c2 e2 = touch d c2 (e1 ++ e2).
Proof. unfold touch. cbn. rewrite app_assoc. reflexivity. Qed.

Lemma new_events_touch d c evs : new_events d (touch d c evs) = evs.
Proof.
  unfold new_events, touch. cbn.
  induction (events d) as [|e l IH]; [reflexivity | exact IH].
Qed.

Lemma new_events_dropped_touch d c evs :
  new_events d (dropped (touch d c evs)) = evs ++ [EvDisconnect].
Proof.
  unfold new_events, dropped, touch. cbn. rewrite <- app_assoc.
  induction (events d) as [|e l IH]; [reflexivity | exact IH].
Qed.

Lemma new_events_refl d : new_events d d = [].
Proof.
  unfold new_events. induction (events d) as [|e l IH]; [reflexivity | exact IH].
Qed.

Lemma new_events_dropped d : new_events d (dropped d) = [EvDisconnect].
Proof.
  unfold new_events, dropped. cbn.
  induction (events d) as [|e l IH]; [reflexivity | exact IH].
Qed.

Lemma disconnect_run d : disconnect d = (Ok tt, dropped d).
Proof. reflexivity. Qed.

(** ** The scanning loops *)

Lemma read_until_loop_found (delim data : bytes) (rest : list rx) :
  forall acc,
    data <> [] ->
    endswith (acc ++ data) delim = true ->
    (forall k, 0 < k < length data -> endswith (acc ++ firstn k data) delim = false) ->
    read_until_loop delim acc (map RxByte data ++ rest) =
    (ReadData (firstn (length (acc ++ data) - length delim) (acc ++ data)), rest).
Proof.
  induction data as [|b data IH]; intros acc Hne Hend Hfirst; [congruence|].
  cbn [map app read_until_loop].
  destruct data as [|b' data'].
  - rewrite Hend. reflexivity.
  - specialize (Hfirst 1) as H1. cbn [firstn] in H1.
    rewrite H1 by (cbn; lia).
    replace (acc ++ b :: b' :: data') with ((acc ++ [b]) ++ b' :: data')
      in * by (rewrite <- app_assoc; reflexivity).
    apply IH; [discriminate | exact Hend |].
    intros k Hk. specialize (Hfirst (S k)). cbn [firstn] in Hfirst.
    rewrite <- app_assoc. cbn [app]. apply Hfirst. cbn in *. lia.
Qed.

Lemma read_until_loop_line (delim line : bytes) (rest : list rx) :
  first_match delim (line ++ delim) ->
  read_until_loop delim [] (map RxByte (line ++ delim) ++ rest) = (ReadData line, rest).
Proof.
  intros (Hne & Hend & Hfirst).
  rewrite read_until_loop_found with (acc := []); cbn [app]; auto.
  rewrite length_app, Nat.add_sub, firstn_app, firstn_all, Nat.sub_diag.
  cbn [firstn]. apply f_equal2; [|reflexivity]. f_equal. apply app_nil_r.
Qed.

Lemma readexactly_loop_data (block : bytes) (rest : list rx) :
  forall acc,
    readexactly_loop (length block) acc (map RxByte block ++ rest) =
    (ReadData (acc ++ block), rest).
Proof.
  induction block as [|b block IH]; intro acc; cbn.
  - rewrite app_nil_r. reflexivity.
  - rewrite IH, <- app_assoc. reflexivity.
Qed.

Lemma read_until_loop_blocked (delim data : bytes) (blocker : rx) (rest : list rx) :
  forall acc,
    (forall b, blocker <> RxByte b) ->
    (forall k, 0 < k <= length data -> endswith (acc ++ firstn k data) delim = false) ->
    read_until_loop delim acc (map RxByte data ++ blocker :: rest) =
    (match blocker with
     | RxFault f => ReadFault f
     | _ => ReadCancelled
     end, blocker :: rest).
Proof.
  induction data as [|b data IH]; intros acc Hblock Hno; cbn [map app read_until_loop].
  - destruct blocker as [b| |f]; [now elim (Hblock b) | reflexivity | reflexivity].
  - specialize (Hno 1) as H1. cbn [firstn] in H1. rewrite H1 by (cbn; lia).
    apply IH; [exact Hblock|].
    intros k Hk. specialize (Hno (S k)). cbn [firstn] in Hno.
    rewrite <- app_assoc. apply Hno. cbn. lia.
Qed.

(** ** Sessions that stay open *)

Lemma same_session_refl d : same_session d d.
Proof.
  destruct (_conn d) as [c|] eqn:E.
  - rewrite <- (touch_nil E) at 2. now apply same_open with (c := c).
  - now apply same_closed.
Qed.

Lemma same_session_touch d c c' evs :
  _conn d = Some c -> disconnects evs = 0 -> same_session d (touch d c' evs).
Proof. intros. eapply same_open; eauto. Qed.

Lemma same_session_state d d' : same_session d d' -> state_of d' = state_of d.
Proof.
  intros [H|c c' evs H _]; [reflexivity|].
  unfold state_of. rewrite H. reflexivity.
Qed.

Lemma same_session_quiet d d' :
  same_session d d' -> disconnects (new_events d d') = 0.
Proof.
  intros [H|c c' evs H Hq].
  - rewrite new_events_refl. reflexivity.
  - rewrite new_events_touch. exact Hq.
Qed.

Lemma same_session_open d d' c :
  same_session d d' -> _conn d = Some c -> _conn d' <> None.
Proof.
  intros [H|c0 c' evs H _] E; [congruence | discriminate].
Qed.

Lemma same_session_ready d d' : same_session d d' -> _ready d' = _ready d.
Proof. intros [H|c c' evs H _]; reflexivity. Qed.

(** ** The command cycle *)

Lemma exn_of_fault_cycle f : cycle_exn (exn_of_fault f) = true.
Proof. destruct f; reflexivity. Qed.

Lemma run_command_internal_closed cmd d :
  _conn d = None -> _run_command_internal cmd d = (Raise AttributeError, d).
Proof.
  intro E. unfold _run_command_internal, bind, the_conn. rewrite E. reflexivity.
Qed.

(** What one untimed cycle can do on an open transport: it leaves the
    transport open, and it ends with a value, a cancellation or one of the
    transport and codec exceptions. *)
Lemma run_command_internal_open cmd d c :
  _conn d = Some c ->
  exists r c' evs,
    _run_command_internal cmd d = (r, touch d c' evs)
    /\ disconnects evs = 0
    /\ raises_only (fun e => match e with
                             | CancelledError => true
                             | _ => cycle_exn e
                             end) r.
Proof.
  intro E. unfold _run_command_internal, bind. rewrite (the_conn_run E).
  destruct (encode (cmd ++ newline)) as [wire|]; cbn [of_option ret raise].
  2:{ exists (Raise UnicodeEncodeError), c, []. rewrite (touch_nil E).
      repeat split. }
  rewrite (writer_write_run E).
  set (c1 := mkConnection _ _ _).
  rewrite (writer_drain_run (d := touch d c1 [EvWrite wire]) (c := c1) eq_refl).
  destruct (tx_script c1) as [|[| |f] script]; rewrite ?touch_touch.
  3:{ do 3 eexists. split; [reflexivity|]. split; reflexivity. }
  3:{ do 3 eexists. split; [reflexivity|]. split; [reflexivity|].
      destruct f; reflexivity. }
  all: match goal with
       | |- context [_read_until _ (touch ?d0 ?c2 ?evs)] =>
           rewrite (read_until_run (d := touch d0 c2 evs) (c := c2) eq_refl crlf)
       end;
    destruct (encode crlf) as [delim|]; rewrite touch_touch;
    [|do 3 eexists; split; [reflexivity|]; split; reflexivity];
    do 3 eexists; (split; [reflexivity|]); (split; [reflexivity|]);
    match goal with
    | |- context [fst ?x] => destruct (fst x) as [data|part| |f]
    end; cbn; auto;
    [destruct (decode data); reflexivity | destruct f; reflexivity].
Qed.

Lemma command_cycle_frame cmd d :
  same_session d (snd (command_cycle cmd d))
  /\ raises_only cycle_exn (fst (command_cycle cmd d))
  /\ (forall v, fst (command_cycle cmd d) = Ok v -> _conn d <> None).
Proof.
  unfold command_cycle, wait_for.
  destruct (_timeout d <=? 0)%Z.
  { cbn. split; [apply same_session_refl|]. split; [reflexivity | discriminate]. }
  destruct (_conn d) as [c|] eqn:E.
  - destruct (run_command_internal_open cmd d E) as (r & c' & evs & -> & Hq & Hr).
    destruct r as [v|[]]; cbn in *; try discriminate;
      (split; [eapply same_session_touch; eauto|]);
      (split; [reflexivity | congruence]).
  - rewrite (run_command_internal_closed cmd d E). cbn.
    split; [apply same_session_refl|]. split; [reflexivity | discriminate].
Qed.

(** [run_command] as a function of what the timed cycle gave. *)
Lemma run_command_unfold cmd d :
  run_command cmd d =
  match command_cycle cmd d with
  | (Ok None, d1) => (Raise no_response_error, d1)
  | (Ok (Some response), d1) =>
      if is_error_response (strip response)
      then (Raise (response_error (strip response)), d1)
      else (Ok (strip response), d1)
  | (Raise e, d1) => run_command_handler e d1
  end.
Proof.
  unfold run_command, try_except, run_command_body, bind, gets, command_cycle.
  destruct (wait_for (_run_command_internal cmd) (_timeout d) d) as [[[resp|]|e] d1];
    cbn; try reflexivity.
  destruct (is_error_response (strip resp)); reflexivity.
Qed.

Lemma disconnects_app l1 l2 : disconnects (l1 ++ l2) = disconnects l1 + disconnects l2.
Proof. unfold disconnects. rewrite filter_app, length_app. reflexivity. Qed.

Lemma same_session_dropped d d' :
  same_session d d' -> disconnects (new_events d (dropped d')) = 1.
Proof.
  intros [H|c c' evs H Hq].
  - rewrite new_events_dropped. reflexivity.
  - rewrite new_events_dropped_touch, disconnects_app, Hq. reflexivity.
Qed.

Lemma no_response_not_fatal : is_fatal (Raise no_response_error) = false.
Proof. reflexivity. Qed.

Lemma command_cycle_open cmd d c wire :
  _conn d = Some c ->
  (0 < _timeout d)%Z ->
  encode (cmd ++ newline) = Some wire ->
  drain_ready c = true ->
  command_cycle cmd d =
  match _read_until crlf
          (touch d (mkConnection (incoming c) (outgoing c ++ wire) (tl (tx_script c)))
                 [EvWrite wire; EvDrain]) with
  | (Raise CancelledError, d1) => (Raise TimeoutError, d1)
  | r => r
  end.
Proof.
  intros E Ht Hw Hd. unfold command_cycle, wait_for.
  destruct (Z.leb_spec (_timeout d) 0) as [Hle|_]; [lia|].
  unfold _run_command_internal, bind.
  rewrite (the_conn_run E), Hw. cbn [of_option ret].
  rewrite (writer_write_run E).
  set (c1 := mkConnection _ _ _).
  rewrite (writer_drain_run (d := touch d c1 [EvWrite wire]) (c := c1) eq_refl).
  unfold drain_ready in Hd. subst c1. cbn [tx_script incoming outgoing].
  destruct (tx_script c) as [|[| |f] script]; try discriminate;
    rewrite touch_touch; reflexivity.
Qed.

(** The timed cycle on a peer whose next bytes are one line and CR LF. *)
Lemma command_cycle_line cmd d c wire raw line rest :
  _conn d = Some c ->
  (0 < _timeout d)%Z ->
  encode (cmd ++ newline) = Some wire ->
  drain_ready c = true ->
  incoming c = map RxByte (raw ++ [CR; LF]) ++ rest ->
  first_match [CR; LF] (raw ++ [CR; LF]) ->
  decode raw = Some line ->
  command_cycle cmd d =
  (Ok (Some line),
   touch d (mkConnection rest (outgoing c ++ wire) (tl (tx_script c)))
         [EvWrite wire; EvDrain; EvReadUntil crlf]).
Proof.
  intros E Ht Hw Hd Hin Hfirst Hdec.
  rewrite (command_cycle_open cmd d E Ht Hw Hd).
  set (c1 := mkConnection _ _ _).
  rewrite (read_until_run (d := touch d c1 _) (c := c1) eq_refl crlf).
  change (encode crlf) with (Some [CR; LF]).
  subst c1. cbn [incoming outgoing tx_script]. rewrite Hin.
  rewrite read_until_loop_line by exact Hfirst. cbn [fst snd].
  rewrite Hdec, touch_touch. reflexivity.
Qed.

(** ** Command execution *)

(** C1. On a successful exchange [run_command c] appends [c] and one
    newline to what was sent, reads one CR LF line, and returns the
    decoded line with the whitespace around it removed: what is returned
    is the one text [r] that the line holds between two runs of
    whitespace and that neither starts nor ends with whitespace.  "1I"
    to a device that replies "SSP-001\r\n" returns "SSP-001", and so it
    does when the reply is "  SSP-001 \r\n". *)
Theorem run_command_success :
  (forall cmd d c wire raw line rest r,
      _conn d = Some c ->
      (0 < _timeout d)%Z ->
      encode (cmd ++ newline) = Some wire ->
      drain_ready c = true ->
      incoming c = map RxByte (raw ++ [CR; LF]) ++ rest ->
      first_match [CR; LF] (raw ++ [CR; LF]) ->
      decode raw = Some line ->
      trimmed line r ->
      is_error_response r = false ->
      run_command cmd d =
      (Ok r,
       touch d (mkConnection rest (outgoing c ++ wire) (tl (tx_script c)))
             [EvWrite wire; EvDrain; EvReadUntil crlf]))
  /\ (forall line, exists r, trimmed line r /\ forall r', trimmed line r' -> r' = r)
  /\ (forall password,
         let d := device password 5 (Some (peer (blit "SSP-001" ++ [CR; LF]) [])) true in
         fst (run_command (lit "1I") d) = Ok (lit "SSP-001")
         /\ option_map outgoing (_conn (snd (run_command (lit "1I") d)))
            = Some (blit "1I" ++ [LF]))
  /\ (forall password,
         let d := device password 5
                         (Some (peer (blit "  SSP-001 " ++ [CR; LF]) [])) true in
         fst (run_command (lit "1I") d) = Ok (lit "SSP-001")).
Proof.
  split; [|split; [|split; intro password; [split|]; reflexivity]].
  - intros cmd d c wire raw line rest r E Ht Hw Hd Hin Hfirst Hdec Htrim Hok.
    apply trimmed_strip in Htrim. subst r.
    rewrite run_command_unfold.
    rewrite (@command_cycle_line cmd d c wire raw line rest E Ht Hw Hd Hin Hfirst Hdec).
    rewrite Hok. reflexivity.
  - intro line. exists (strip line). split; [apply strip_trimmed|].
    intros r' Hr'. symmetry. apply trimmed_strip, Hr'.
Qed.

(** C2. When the timed cycle ends in [TimeoutError], or in
    [ConnectionResetError] or [BrokenPipeError], [run_command] calls
    [disconnect] and only then raises: the caller gets "Command timed
    out, disconnecting" (or "Connection was reset") together with a
    session that is Disconnected, its handle cleared, the disconnect
    being the last call on the transport.  So it is when the peer goes
    quiet, or the connection breaks, before the CR LF has arrived. *)
Theorem run_command_fatal :
  (forall cmd d e d1,
      command_cycle cmd d = (Raise e, d1) ->
      e = TimeoutError \/ e = ConnectionResetError \/ e = BrokenPipeError ->
      run_command cmd d =
      (Raise (match e with TimeoutError => timed_out_error | _ => reset_error end),
       dropped d1)
      /\ state_of (snd (run_command cmd d)) = Disconnected
      /\ _conn (snd (run_command cmd d)) = None
      /\ events (snd (run_command cmd d)) = events d1 ++ [EvDisconnect])
  /\ (forall cmd d c wire data blocker rest,
         _conn d = Some c ->
         (0 < _timeout d)%Z ->
         encode (cmd ++ newline) = Some wire ->
         drain_ready c = true ->
         incoming c = map RxByte data ++ blocker :: rest ->
         (forall b, blocker <> RxByte b) ->
         no_match [CR; LF] data ->
         run_command cmd d =
         (Raise (match blocker with
                 | RxFault _ => reset_error
                 | _ => timed_out_error
                 end),
          dropped (touch d (mkConnection (blocker :: rest) (outgoing c ++ wire)
                                         (tl (tx_script c)))
                         [EvWrite wire; EvDrain; EvReadUntil crlf]))).
Proof.
  split.
  - intros cmd d e d1 H He. rewrite run_command_unfold, H.
    destruct He as [->|[->| ->]]; repeat split.
  - intros cmd d c wire data blocker rest E Ht Hw Hd Hin Hblock Hno.
    rewrite run_command_unfold, (command_cycle_open cmd d E Ht Hw Hd).
    set (c1 := mkConnection _ _ _).
    rewrite (read_until_run (d := touch d c1 _) (c := c1) eq_refl crlf).
    change (encode crlf) with (Some [CR; LF]).
    subst c1. cbn [incoming outgoing tx_script]. rewrite Hin.
    rewrite read_until_loop_blocked by (exact Hblock || exact Hno).
    cbn [fst snd]. rewrite touch_touch.
    destruct blocker as [b| |[]]; [now elim (Hblock b) | reflexivity ..].
Qed.

(** C3. When the stripped response is an error code, [run_command] raises
    [ResponseError] with the code in its message, and the transport stays
    as the cycle left it: still open, the session in the state it was in
    (Ready stays Ready), no [disconnect] called.  So it is on a peer whose
    line strips to an error code. *)
Theorem run_command_error_code :
  (forall cmd d response d1,
      command_cycle cmd d = (Ok (Some response), d1) ->
      is_error_response (strip response) = true ->
      run_command cmd d =
      (Raise (ResponseError (lit "Command failed with error code " ++ strip response)),
       d1)
      /\ state_of d1 = state_of d
      /\ _conn d1 <> None
      /\ disconnects (new_events d d1) = 0)
  /\ (forall cmd d c wire raw line rest,
         _conn d = Some c ->
         (0 < _timeout d)%Z ->
         encode (cmd ++ newline) = Some wire ->
         drain_ready c = true ->
         incoming c = map RxByte (raw ++ [CR; LF]) ++ rest ->
         first_match [CR; LF] (raw ++ [CR; LF]) ->
         decode raw = Some line ->
         is_error_response (strip line) = true ->
         run_command cmd d =
         (Raise (ResponseError (lit "Command failed with error code " ++ strip line)),
          touch d (mkConnection rest (outgoing c ++ wire) (tl (tx_script c)))
                [EvWrite wire; EvDrain; EvReadUntil crlf])).
Proof.
  split.
  - intros cmd d response d1 H Herr. rewrite run_command_unfold, H, Herr.
    destruct (command_cycle_frame cmd d) as (Hs & _ & Hopen).
    rewrite H in Hs, Hopen. cbn [fst snd] in Hs, Hopen.
    split; [reflexivity|].
    split; [apply same_session_state; exact Hs|].
    split; [|apply same_session_quiet; exact Hs].
    destruct (_conn d) as [c|] eqn:E.
    + eapply same_session_open; eauto.
    + exfalso. eapply Hopen; reflexivity.
  - intros cmd d c wire raw line rest E Ht Hw Hd Hin Hfirst Hdec Herr.
    rewrite run_command_unfold.
    rewrite (@command_cycle_line cmd d c wire raw line rest E Ht Hw Hd Hin Hfirst Hdec).
    rewrite Herr. reflexivity.
Qed.

(** C7. When the line read gives nothing ([None]), in particular when the
    stream is at its end before any byte, [run_command] raises the
    [RuntimeError] "Command failed, got no response"; that error is not
    the timeout failure, not the reset failure and not a [ResponseError]. *)
Theorem run_command_no_response :
  (forall cmd d d1,
      command_cycle cmd d = (Ok None, d1) ->
      run_command cmd d = (Raise no_response_error, d1))
  /\ (forall cmd d c wire,
         _conn d = Some c ->
         (0 < _timeout d)%Z ->
         encode (cmd ++ newline) = Some wire ->
         drain_ready c = true ->
         incoming c = [] ->
         run_command cmd d =
         (Raise no_response_error,
          touch d (mkConnection [] (outgoing c ++ wire) (tl (tx_script c)))
                [EvWrite wire; EvDrain; EvReadUntil crlf]))
  /\ no_response_error <> timed_out_error
  /\ no_response_error <> reset_error
  /\ no_response_error <> TimeoutError
  /\ (forall msg, no_response_error <> ResponseError msg).
Proof.
  split; [|split].
  - intros cmd d d1 H. rewrite run_command_unfold, H. reflexivity.
  - intros cmd d c wire E Ht Hw Hd Hin.
    rewrite run_command_unfold, (command_cycle_open cmd d E Ht Hw Hd).
    set (c1 := mkConnection _ _ _).
    rewrite (read_until_run (d := touch d c1 _) (c := c1) eq_refl crlf).
    change (encode crlf) with (Some [CR; LF]).
    subst c1. cbn [incoming outgoing tx_script]. rewrite Hin.
    cbn [read_until_loop fst snd]. rewrite touch_touch. reflexivity.
  - repeat split; try discriminate; intro H; vm_compute in H; discriminate H.
Qed.

(** C10. [run_command] calls [disconnect] exactly on its timeout and
    reset/broken-pipe branches.  On the no-response branch and on the
    [ResponseError] branch it raises without disconnecting: the handle is
    still set and the session state is what it was. *)
Theorem run_command_disconnect_frame cmd d :
  disconnects (new_events d (snd (run_command cmd d)))
  = (if is_fatal (fst (run_command cmd d)) then 1 else 0)
  /\ (fst (run_command cmd d) = Raise no_response_error
      \/ (exists msg, fst (run_command cmd d) = Raise (ResponseError msg)) ->
      disconnects (new_events d (snd (run_command cmd d))) = 0
      /\ _conn (snd (run_command cmd d)) <> None
      /\ state_of (snd (run_command cmd d)) = state_of d)
  /\ (is_fatal (fst (run_command cmd d)) = true ->
      fst (run_command cmd d) = Raise timed_out_error
      \/ fst (run_command cmd d) = Raise reset_error).
Proof.
  rewrite run_command_unfold.
  destruct (command_cycle_frame cmd d) as (Hs & Hr & Hopen).
  assert (Hstill : forall v, fst (command_cycle cmd d) = Ok v ->
                             _conn (snd (command_cycle cmd d)) <> None).
  { intros v Hv. specialize (Hopen v Hv).
    destruct (_conn d) as [c|] eqn:E; [|congruence].
    eapply same_session_open; eauto. }
  destruct (command_cycle cmd d) as [[[resp|]|e] d1]; cbn [fst snd] in *.
  - destruct (is_error_response (strip resp)); cbn [fst snd is_fatal];
      rewrite (same_session_quiet Hs); (split; [reflexivity|]);
      (split; [|discriminate]); intros _;
      (split; [reflexivity|]); (split; [eapply Hstill; reflexivity|]);
      apply same_session_state; exact Hs.
  - cbn [fst snd]. rewrite no_response_not_fatal, (same_session_quiet Hs).
    split; [reflexivity|]. split; [|discriminate]. intros _.
    split; [reflexivity|]. split; [eapply Hstill; reflexivity|].
    apply same_session_state; exact Hs.
  - destruct e; try discriminate Hr; cbn [run_command_handler];
      unfold bind, raise; rewrite ?disconnect_run; cbn [fst snd].
    1-3: rewrite (same_session_dropped Hs);
      (split; [reflexivity|]); split;
      [intros [H|[msg H]]; [vm_compute in H|]; discriminate H | auto].
    all: cbn [is_fatal]; rewrite (same_session_quiet Hs);
      (split; [reflexivity|]); split;
      [intros [H|[msg H]]; discriminate H | discriminate].
Qed.

(** ** The handshake *)

Lemma attempt_login_eq : attempt_login = (_read_until password_prompt ;; login_tail).
Proof. reflexivity. Qed.

Lemma exn_of_fault_io f : io_exn (exn_of_fault f) = true.
Proof. destruct f; reflexivity. Qed.

Lemma login_end_io k e : io_exn e = true -> k <= 5 -> login_end k (Raise e).
Proof. destruct e; cbn; try discriminate; auto. Qed.

Ltac io_leaf :=
  apply login_end_io; [try apply exn_of_fault_io; reflexivity | lia].

Ltac stop_at k :=
  do 2 eexists; exists k; (split; [reflexivity|]);
  split; [first [reflexivity | io_leaf | cbn; split; reflexivity] | try lia].

(** The handshake from the write on: it logs a prefix of the last four
    steps, and the write is among them unless the password cannot be
    encoded. *)
Lemma login_tail_trace d c :
  _conn d = Some c ->
  exists r c' k,
    login_tail d = (r, touch d c' (firstn k (tl (login_steps (wire_of d)))))
    /\ login_end (S k) r
    /\ (encode (_password d ++ newline) = None \/ 1 <= k).
Proof.
  intro E. unfold login_tail, bind, gets, wire_of. rewrite (the_conn_run E).
  destruct (encode (_password d ++ newline)) as [wire|]; cbn [of_option ret raise].
  2:{ exists (Raise UnicodeEncodeError), c, 0. cbn [firstn].
      rewrite (touch_nil E). repeat split; [cbn; lia | now left]. }
  rewrite (writer_write_run E).
  set (c1 := mkConnection _ _ _).
  rewrite (writer_drain_run (d := touch d c1 _) (c := c1) eq_refl).
  assert (Hread : forall c2,
    exists r c' k,
      (let (r0, d') := reader_readexactly 10 (touch d c2 [EvWrite wire; EvDrain]) in
       match r0 with
       | Ok resp =>
           let (r1, d'0) := of_option UnicodeDecodeError (decode resp) d' in
           match r1 with
           | Ok text =>
               let (r2, d'1) :=
                 (if str_eqb (strip text) (lit "Password")
                  then raise auth_failed else ret tt) d'0 in
               match r2 with
               | Ok _ =>
                   let (r3, d'2) := _read_until newline d'1 in
                   match r3 with
                   | Ok _ => (Ok tt, d'2)
                   | Raise e => (Raise e, d'2)
                   end
               | Raise e => (Raise e, d'1)
               end
           | Raise e => (Raise e, d'0)
           end
       | Raise e => (Raise e, d')
       end) = (r, touch d c' (firstn k (tl (login_steps wire))))
      /\ login_end (S k) r /\ 1 <= k).
  { intro c2.
    rewrite (reader_readexactly_run (d := touch d c2 _) (c := c2) eq_refl 10).
    rewrite touch_touch. set (c3 := mkConnection _ _ _).
    destruct (fst (readexactly_loop 10 [] (incoming c2))) as [block|part| |f].
    2-4: stop_at 3.
    destruct (decode block) as [text|]; cbn [of_option ret raise]; [|stop_at 3].
    destruct (str_eqb (strip text) (lit "Password")); cbn [ret raise]; [stop_at 3|].
    rewrite (read_until_run (d := touch d c3 _) (c := c3) eq_refl newline).
    change (encode newline) with (Some [LF]). rewrite touch_touch.
    destruct (fst (read_until_loop [LF] [] (incoming c3))) as [data|part| |f].
    1: destruct (decode data).
    all: rewrite ?touch_touch; stop_at 4. }
  subst c1. cbn [tx_script incoming outgoing].
  destruct (tx_script c) as [|[| |f] script]; rewrite touch_touch; cbn [app].
  1-2: match goal with
       | |- context [reader_readexactly 10 (touch _ ?c2 _)] =>
           destruct (Hread c2) as (r & c' & k & Hrun & Hend & Hk)
       end; exists r, c', k; auto.
  all: do 2 eexists; exists 2; (split; [reflexivity|]); split; [io_leaf | right; lia].
Qed.

Lemma attempt_login_closed d :
  _conn d = None -> attempt_login d = (Raise AttributeError, d).
Proof.
  intro E. unfold attempt_login, _read_until, bind, the_conn. rewrite E. reflexivity.
Qed.

(** Every handshake on an open transport logs a prefix of the five steps,
    and how it ends fixes the length of that prefix; once the read of the
    prompt has returned, the write is among them unless the password
    cannot be encoded. *)
Lemma attempt_login_trace d c :
  _conn d = Some c ->
  exists r c' k,
    attempt_login d = (r, touch d c' (firstn k (login_steps (wire_of d))))
    /\ login_end k r
    /\ (forall v d0, _read_until password_prompt d = (Ok v, d0) ->
                     encode (_password d ++ newline) = None \/ 2 <= k).
Proof.
  intro E. rewrite attempt_login_eq. unfold bind.
  rewrite (read_until_run E password_prompt).
  change (encode password_prompt) with (Some (blit "Password:")).
  cbv beta iota.
  set (c0 := mkConnection _ _ _).
  assert (Htail : exists r c' k,
    login_tail (touch d c0 [EvReadUntil password_prompt]) =
    (r, touch d c' (firstn k (login_steps (wire_of d)))) /\ login_end k r
    /\ (encode (_password d ++ newline) = None \/ 2 <= k)).
  { destruct (login_tail_trace (touch d c0 [EvReadUntil password_prompt])
                (c := c0) eq_refl) as (r & c' & k & Hrun & Hend & Hk).
    exists r, c', (S k). rewrite Hrun, touch_touch.
    split; [reflexivity|]. split; [exact Hend|].
    cbn [_password touch] in Hk. destruct Hk; [now left | right; lia]. }
  destruct (fst (read_until_loop _ [] (incoming c))) as [data|part| |f].
  1: destruct (decode data).
  1,3: destruct Htail as (r & c' & k & Hrun & Hend & Hk);
    exists r, c', k; (split; [exact Hrun|]); split; [exact Hend | intros; exact Hk].
  all: do 2 eexists; exists 1; (split; [reflexivity|]);
    split; [io_leaf | intros v d0 Hc; discriminate Hc].
Qed.

(** The handshake up to the fixed-width read, on a peer that prompts,
    accepts the write and then sends ten bytes. *)
Lemma attempt_login_to_check d c junk block rest wire text :
  _conn d = Some c ->
  incoming c = map RxByte (junk ++ blit "Password:") ++ map RxByte block ++ rest ->
  first_match (blit "Password:") (junk ++ blit "Password:") ->
  decode junk <> None ->
  encode (_password d ++ newline) = Some wire ->
  drain_ready c = true ->
  length block = 10 ->
  decode block = Some text ->
  attempt_login d =
  ((if str_eqb (strip text) (lit "Password") then raise auth_failed else ret tt) ;;
   _read_until newline ;;
   ret tt)
    (touch d (mkConnection rest (outgoing c ++ wire) (tl (tx_script c)))
           [EvReadUntil password_prompt; EvWrite wire; EvDrain; EvReadExactly 10]).
Proof.
  intros E Hin Hfirst Hjunk Hw Hd Hlen Hdec.
  unfold attempt_login at 1. unfold bind at 1.
  rewrite (read_until_run E password_prompt).
  change (encode password_prompt) with (Some (blit "Password:")).
  cbv beta iota. rewrite Hin, read_until_loop_line by exact Hfirst.
  cbn [fst snd]. destruct (decode junk) as [j|]; [clear Hjunk | congruence].
  set (c0 := mkConnection _ _ _).
  unfold bind at 1, gets. unfold bind at 1.
  rewrite (the_conn_run (d := touch d c0 _) (c := c0) eq_refl).
  unfold bind at 1. cbn [_password touch]. rewrite Hw. cbn [of_option ret].
  unfold bind at 1.
  rewrite (writer_write_run (d := touch d c0 _) (c := c0) eq_refl), touch_touch.
  set (c1 := mkConnection _ _ _).
  unfold bind at 1.
  rewrite (writer_drain_run (d := touch d c1 _) (c := c1) eq_refl).
  unfold drain_ready in Hd.
  assert (Hdrain :
    match tx_script c1 with
    | [] => (Ok tt, touch (touch d c1 ([EvReadUntil password_prompt] ++ [EvWrite wire]))
                          c1 [EvDrain])
    | TxDone :: script =>
        (Ok tt, touch (touch d c1 ([EvReadUntil password_prompt] ++ [EvWrite wire]))
                      (mkConnection (incoming c1) (outgoing c1) script) [EvDrain])
    | TxStall :: _ =>
        (Raise CancelledError,
         touch (touch d c1 ([EvReadUntil password_prompt] ++ [EvWrite wire])) c1 [EvDrain])
    | TxFault f :: _ =>
        (Raise (exn_of_fault f),
         touch (touch d c1 ([EvReadUntil password_prompt] ++ [EvWrite wire])) c1 [EvDrain])
    end =
    (Ok tt, touch d (mkConnection (map RxByte block ++ rest) (outgoing c ++ wire)
                                  (tl (tx_script c)))
                  [EvReadUntil password_prompt; EvWrite wire; EvDrain])).
  { subst c1 c0. cbn [tx_script incoming outgoing].
    destruct (tx_script c) as [|[| |f] script]; try discriminate;
      rewrite touch_touch; reflexivity. }
  rewrite Hdrain. clear Hdrain. set (c2 := mkConnection _ _ _).
  unfold bind at 1.
  rewrite (reader_readexactly_run (d := touch d c2 _) (c := c2) eq_refl 10), touch_touch.
  subst c2. cbn [incoming outgoing tx_script].
  rewrite <- Hlen, readexactly_loop_data. cbn [fst snd app].
  unfold bind at 1. rewrite Hdec. cbn [of_option ret]. reflexivity.
Qed.

(** C5. The handshake, step by step: read until "Password:"; write the
    password and one newline, then drain; read exactly ten bytes, decode
    and strip them; if that gives "Password", raise [AuthenticationError]
    and stop there; otherwise read until the next newline and return. *)
Theorem attempt_login_protocol d c junk block rest wire text :
  _conn d = Some c ->
  incoming c = map RxByte (junk ++ blit "Password:") ++ map RxByte block ++ rest ->
  first_match (blit "Password:") (junk ++ blit "Password:") ->
  decode junk <> None ->
  encode (_password d ++ newline) = Some wire ->
  drain_ready c = true ->
  length block = 10 ->
  decode block = Some text ->
  (strip text = lit "Password" ->
   attempt_login d =
   (Raise (AuthenticationError (lit "Authentication failed, probably wrong password")),
    touch d (mkConnection rest (outgoing c ++ wire) (tl (tx_script c)))
          [EvReadUntil (lit "Password:"); EvWrite wire; EvDrain; EvReadExactly 10]))
  /\ (strip text <> lit "Password" ->
      new_events d (snd (attempt_login d)) =
      [EvReadUntil (lit "Password:"); EvWrite wire; EvDrain; EvReadExactly 10;
       EvReadUntil [10%N]]
      /\ forall banner rest',
          rest = map RxByte (banner ++ [LF]) ++ rest' ->
          first_match [LF] (banner ++ [LF]) ->
          decode banner <> None ->
          attempt_login d =
          (Ok tt,
           touch d (mkConnection rest' (outgoing c ++ wire) (tl (tx_script c)))
                 [EvReadUntil (lit "Password:"); EvWrite wire; EvDrain;
                  EvReadExactly 10; EvReadUntil [10%N]])).
Proof.
  intros E Hin Hfirst Hjunk Hw Hd Hlen Hdec.
  rewrite (@attempt_login_to_check d c junk block rest wire text
             E Hin Hfirst Hjunk Hw Hd Hlen Hdec).
  unfold str_eqb.
  destruct (list_eq_dec N.eq_dec (strip text) (lit "Password")) as [Heq|Hne].
  { split; [intros _; reflexivity | intro H; contradiction]. }
  split; [intro H; contradiction | intros _].
  cbv beta iota delta [bind ret].
  set (c1 := mkConnection _ _ _).
  rewrite (read_until_run (d := touch d c1 _) (c := c1) eq_refl newline).
  change (encode newline) with (Some [LF]). cbv beta iota. rewrite touch_touch.
  split.
  - destruct (fst (read_until_loop [LF] [] (incoming c1))) as [data|part| |f];
      [destruct (decode data)|..]; cbn [snd]; apply new_events_touch.
  - intros banner rest' Hrest Hline Hbanner. subst c1.
    cbn [incoming outgoing tx_script]. rewrite Hrest.
    rewrite read_until_loop_line by exact Hline. cbn [fst snd].
    destruct (decode banner); [reflexivity | congruence].
Qed.

Lemma writes_login_steps k wire :
  length (writes (firstn k (login_steps wire))) <= 1
  /\ (2 <= k -> writes (firstn k (login_steps wire)) = [EvWrite wire]).
Proof.
  do 5 (destruct k as [|k]; [cbn; split; [lia | intro; try lia; reflexivity]|]).
  cbn [firstn login_steps]. rewrite firstn_nil. cbn. split; [lia | reflexivity].
Qed.

Lemma disconnects_login_steps k wire : disconnects (firstn k (login_steps wire)) = 0.
Proof.
  do 5 (destruct k as [|k]; [reflexivity|]).
  cbn [firstn login_steps]. rewrite firstn_nil. reflexivity.
Qed.

Lemma attempt_login_unencodable d :
  encode (_password d ++ newline) = None ->
  exists e, fst (attempt_login d) = Raise e /\ io_exn e = true.
Proof.
  intro Hw. destruct (_conn d) as [c|] eqn:E.
  2:{ rewrite (attempt_login_closed d E). eexists; split; reflexivity. }
  rewrite attempt_login_eq. unfold bind.
  rewrite (read_until_run E password_prompt).
  change (encode password_prompt) with (Some (blit "Password:")).
  cbv beta iota. set (c0 := mkConnection _ _ _).
  assert (Htail : exists e,
    fst (login_tail (touch d c0 [EvReadUntil password_prompt])) = Raise e
    /\ io_exn e = true).
  { unfold login_tail, bind, gets.
    rewrite (the_conn_run (d := touch d c0 _) (c := c0) eq_refl).
    cbn [_password touch]. rewrite Hw. eexists; split; reflexivity. }
  destruct (fst (read_until_loop _ [] (incoming c))) as [data|part| |f].
  1: destruct (decode data).
  1,3: exact Htail.
  all: eexists; (split; [reflexivity|]); try apply exn_of_fault_io; reflexivity.
Qed.

Lemma after_connect_unfold d :
  after_connect d =
  if (_timeout d <=? 0)%Z then (Raise TimeoutError, d)
  else match attempt_login d with
       | (Raise CancelledError, d') => (Raise TimeoutError, d')
       | r => r
       end.
Proof.
  unfold after_connect, bind, gets, wait_for.
  destruct (_timeout d <=? 0)%Z; reflexivity.
Qed.

(** [after_connect] never closes the transport; it ends normally, with
    [TimeoutError], with the authentication failure or with an exception
    of the transport and codec layer. *)
Lemma after_connect_frame d :
  same_session d (snd (after_connect d))
  /\ snd (after_connect d) = (if (_timeout d <=? 0)%Z then d else snd (attempt_login d)).
Proof.
  rewrite after_connect_unfold.
  destruct (_timeout d <=? 0)%Z; [split; [apply same_session_refl | reflexivity]|].
  destruct (_conn d) as [c|] eqn:E.
  - destruct (attempt_login_trace d E) as (r & c' & k & -> & _).
    assert (Hs : same_session d (touch d c' (firstn k (login_steps (wire_of d)))))
      by (eapply same_session_touch; [exact E | apply disconnects_login_steps]).
    destruct r as [[]|[]]; split; try exact Hs; reflexivity.
  - rewrite (attempt_login_closed d E). split; [apply same_session_refl | reflexivity].
Qed.

Lemma connect_unfold transport d :
  connect transport d =
  match after_connect (opened d transport) with
  | (Ok _, d1) => set_ready true d1
  | (Raise e, d1) => (Raise e, dropped d1)
  end.
Proof.
  unfold connect, bind, try_except. cbn [log set_conn].
  change (mkDevice _ _ _ _ _ _ _) with (opened d transport).
  destruct (after_connect (opened d transport)) as [[[]|e] d1]; reflexivity.
Qed.

(** C8. The password goes out at most once per handshake, whatever the
    peer does, and exactly once as soon as the read of the prompt has
    returned (the password being encodable).  A handshake that ends
    normally or with [AuthenticationError] has written it exactly once,
    as the encoded password and one newline, so a re-prompt is never
    answered with a second write. *)
Theorem credential_written_once d :
  length (writes (new_events d (snd (attempt_login d)))) <= 1
  /\ length (writes (new_events d (snd (after_connect d)))) <= 1
  /\ (forall v d0 wire,
         _read_until password_prompt d = (Ok v, d0) ->
         encode (_password d ++ newline) = Some wire ->
         writes (new_events d (snd (attempt_login d))) = [EvWrite wire])
  /\ (fst (attempt_login d) = Ok tt
      \/ (exists msg, fst (attempt_login d) = Raise (AuthenticationError msg)) ->
      exists wire,
        encode (_password d ++ newline) = Some wire
        /\ writes (new_events d (snd (attempt_login d))) = [EvWrite wire]).
Proof.
  assert (Hlogin : length (writes (new_events d (snd (attempt_login d)))) <= 1).
  { destruct (_conn d) as [c|] eqn:E.
    - destruct (attempt_login_trace d E) as (r & c' & k & -> & _).
      cbn [snd]. rewrite new_events_touch. apply writes_login_steps.
    - rewrite (attempt_login_closed d E). cbn [snd]. rewrite new_events_refl.
      cbn. lia. }
  split; [exact Hlogin|]. split; [|split].
  - destruct (after_connect_frame d) as (_ & ->).
    destruct (_timeout d <=? 0)%Z; [|exact Hlogin].
    rewrite new_events_refl. cbn. lia.
  - intros v d0 wire Hprompt Hw.
    destruct (_conn d) as [c|] eqn:E.
    + destruct (attempt_login_trace d E) as (r & c' & k & Hrun & _ & Hk).
      rewrite Hrun. cbn [snd]. rewrite new_events_touch.
      unfold wire_of. rewrite Hw. apply writes_login_steps.
      destruct (Hk v d0 Hprompt) as [Hnone|Hge]; [congruence | exact Hge].
    + unfold _read_until, bind, the_conn in Hprompt. rewrite E in Hprompt.
      discriminate Hprompt.
  - intro Hend.
    destruct (encode (_password d ++ newline)) as [wire|] eqn:Hw.
    + exists wire. split; [reflexivity|].
      destruct (_conn d) as [c|] eqn:E.
      * destruct (attempt_login_trace d E) as (r & c' & k & Hrun & Hk & _).
        rewrite Hrun in *. cbn [fst snd] in *. rewrite new_events_touch.
        unfold wire_of. rewrite Hw.
        apply writes_login_steps.
        destruct Hend as [->|[msg ->]]; cbn in Hk; [lia | destruct Hk; lia].
      * rewrite (attempt_login_closed d E) in Hend. cbn in Hend.
        destruct Hend as [H|[msg H]]; discriminate H.
    + destruct (attempt_login_unencodable d Hw) as (e & He & Hio).
      rewrite He in Hend. destruct Hend as [H|[msg H]]; [discriminate H|].
      injection H as ->. discriminate Hio.
Qed.

(** C8 without its condition does not hold: a peer that stalls before
    it has sent the prompt ends the handshake with [TimeoutError] and
    the password has not been written at all. *)
Lemma credential_not_written_before_prompt :
  fst (after_connect (opened fresh_device stalling_peer)) = Raise TimeoutError
  /\ writes (new_events (opened fresh_device stalling_peer)
                (snd (after_connect (opened fresh_device stalling_peer)))) = []
  /\ length (writes (new_events (opened fresh_device stalling_peer)
                        (snd (attempt_login (opened fresh_device stalling_peer)))))
     <> 1.
Proof.
  split; [reflexivity|]. split; [reflexivity|]. cbn. discriminate.
Qed.

(** C6. A connection attempt whose handshake raises
    [AuthenticationError] ends with that error and with the session
    Disconnected: [after_connect] passes the error on with the transport
    still open, [connect] then closes it, and a command on the session
    that is left fails on the cleared handle without sending anything. *)
Theorem connect_authentication_failure transport d msg d1 :
  (0 < _timeout d)%Z ->
  attempt_login (opened d transport) = (Raise (AuthenticationError msg), d1) ->
  after_connect (opened d transport) = (Raise (AuthenticationError msg), d1)
  /\ _conn d1 <> None
  /\ connect transport d = (Raise (AuthenticationError msg), dropped d1)
  /\ state_of (snd (connect transport d)) = Disconnected
  /\ _conn (snd (connect transport d)) = None
  /\ forall cmd,
      run_command cmd (snd (connect transport d))
      = (Raise AttributeError, snd (connect transport d)).
Proof.
  intros Ht Hrun.
  assert (Hafter : after_connect (opened d transport)
                   = (Raise (AuthenticationError msg), d1)).
  { rewrite after_connect_unfold. cbn [_timeout opened].
    destruct (Z.leb_spec (_timeout d) 0); [lia|]. rewrite Hrun. reflexivity. }
  split; [exact Hafter|]. split.
  - destruct (after_connect_frame (opened d transport)) as (Hs & _).
    rewrite Hafter in Hs. eapply same_session_open; [exact Hs | reflexivity].
  - rewrite connect_unfold, Hafter. cbn [snd].
    repeat split. intro cmd.
    assert (Htime : _timeout d1 = _timeout d).
    { destruct (attempt_login_trace (opened d transport) (c := transport) eq_refl)
        as (r & c' & k & Hrun' & _).
      rewrite Hrun in Hrun'. injection Hrun' as _ ->. reflexivity. }
    rewrite run_command_unfold. unfold command_cycle, wait_for.
    cbn [_timeout dropped]. rewrite Htime.
    destruct (Z.leb_spec (_timeout d) 0); [lia|]. reflexivity.
Qed.

(** C9. When the timer of [wait_for] cancels the handshake at one of its
    steps (or the deadline is over before it starts), [after_connect]
    raises [TimeoutError], never [AuthenticationError], and leaves the
    transport as it is; [connect] then disconnects and passes the
    [TimeoutError] on. *)
Theorem handshake_timeout transport d :
  (_timeout d <= 0)%Z \/ fst (attempt_login (opened d transport)) = Raise CancelledError ->
  fst (after_connect (opened d transport)) = Raise TimeoutError
  /\ (forall msg, fst (after_connect (opened d transport))
                  <> Raise (AuthenticationError msg))
  /\ same_session (opened d transport) (snd (after_connect (opened d transport)))
  /\ fst (connect transport d) = Raise TimeoutError
  /\ state_of (snd (connect transport d)) = Disconnected
  /\ events (snd (connect transport d))
     = events (snd (after_connect (opened d transport))) ++ [EvDisconnect].
Proof.
  intro H.
  assert (Hafter : fst (after_connect (opened d transport)) = Raise TimeoutError).
  { rewrite after_connect_unfold. cbn [_timeout opened].
    destruct (Z.leb_spec (_timeout d) 0) as [Hle|Hlt]; [reflexivity|].
    destruct H as [H|H]; [lia|].
    destruct (attempt_login (opened d transport)) as [r d']. cbn [fst] in H.
    rewrite H. reflexivity. }
  split; [exact Hafter|]. split; [rewrite Hafter; discriminate|].
  split; [apply after_connect_frame|].
  rewrite connect_unfold.
  destruct (after_connect (opened d transport)) as [r d1]. cbn [fst] in Hafter.
  rewrite Hafter. repeat split.
Qed.

(** ** The theorems on the sample peers *)

Ltac first_match_tac :=
  split; [discriminate|];
  split; [reflexivity|];
  let k := fresh "k" in
  let Hk := fresh "Hk" in
  intros k Hk; cbn in Hk;
  do 60 (try (destruct k as [|k]; [first [lia | reflexivity]|]));
  lia.

Lemma run_command_success_witness :
  run_command (lit "1I") (answering (blit "  SSP-001 ")) =
  (Ok (lit "SSP-001"),
   touch (answering (blit "  SSP-001 ")) (mkConnection [] (blit "1I" ++ [LF]) [])
         [EvWrite (blit "1I" ++ [LF]); EvDrain; EvReadUntil crlf]).
Proof.
  apply (proj1 run_command_success (lit "1I") (answering (blit "  SSP-001 "))
           (peer (blit "  SSP-001 " ++ [CR; LF]) [])
           (blit "1I" ++ [LF]) (blit "  SSP-001 ") (lit "  SSP-001 ") []
           (lit "SSP-001")).
  - reflexivity.
  - cbn. lia.
  - reflexivity.
  - reflexivity.
  - reflexivity.
  - first_match_tac.
  - reflexivity.
  - exists (lit "  "), (lit " "). split; [reflexivity|].
    split; [repeat constructor|]. split; [repeat constructor|]. split.
    + intros c t H. injection H as <- _. reflexivity.
    + intros t c H. change (lit "SSP-001") with (lit "SSP-00" ++ [49%N]) in H.
      apply app_inj_tail in H as [_ <-]. reflexivity.
  - reflexivity.
Defined.

Lemma run_command_fatal_witness :
  (fst (run_command (lit "1I") stalled_device) = Raise timed_out_error
   /\ state_of (snd (run_command (lit "1I") stalled_device)) = Disconnected)
  /\ (fst (run_command (lit "1I") reset_device) = Raise reset_error
      /\ state_of (snd (run_command (lit "1I") reset_device)) = Disconnected)
  /\ (fst (run_command (lit "1I") broken_device) = Raise reset_error
      /\ state_of (snd (run_command (lit "1I") broken_device)) = Disconnected).
Proof.
  destruct run_command_fatal as (Hcycle & Hpeer).
  pose proof (Hpeer (lit "1I") stalled_device (peer (blit "SSP") [RxStall])
                (blit "1I" ++ [LF]) (blit "SSP") RxStall []
                eq_refl eq_refl eq_refl eq_refl eq_refl
                ltac:(discriminate)
                ltac:(intros k Hk; cbn in Hk;
                      do 4 (try (destruct k as [|k]; [first [lia | reflexivity]|]));
                      lia)) as H1.
  pose proof (Hcycle (lit "1I") reset_device ConnectionResetError _
                eq_refl (or_intror (or_introl eq_refl))) as (H2 & H2' & _).
  pose proof (Hcycle (lit "1I") broken_device BrokenPipeError _
                eq_refl (or_intror (or_intror eq_refl))) as (H3 & H3' & _).
  rewrite H1, H2, H3 in *. repeat split; assumption.
Defined.

Lemma run_command_error_code_witness :
  run_command (lit "1I") e01_device =
  (Raise (ResponseError (lit "Command failed with error code E01")),
   touch e01_device (mkConnection [] (blit "1I" ++ [LF]) [])
         [EvWrite (blit "1I" ++ [LF]); EvDrain; EvReadUntil crlf])
  /\ state_of (snd (run_command (lit "1I") e01_device)) = Ready.
Proof.
  destruct run_command_error_code as (Hcycle & Hpeer).
  split.
  - exact (Hpeer (lit "1I") e01_device (peer (blit "E01" ++ [CR; LF]) [])
             (blit "1I" ++ [LF]) (blit "E01") (lit "E01") []
             eq_refl eq_refl eq_refl eq_refl eq_refl
             ltac:(first_match_tac) eq_refl eq_refl).
  - destruct (Hcycle (lit "1I") e01_device (lit "E01") _ eq_refl eq_refl)
      as (H & Hs & _).
    rewrite H. exact Hs.
Defined.

Lemma run_command_no_response_witness :
  run_command (lit "1I") silent_device =
  (Raise (RuntimeError (lit "Command failed, got no response")),
   touch silent_device (mkConnection [] (blit "1I" ++ [LF]) [])
         [EvWrite (blit "1I" ++ [LF]); EvDrain; EvReadUntil crlf]).
Proof.
  destruct run_command_no_response as (_ & Hstream & _).
  exact (Hstream (lit "1I") silent_device (peer [] []) (blit "1I" ++ [LF])
           eq_refl eq_refl eq_refl eq_refl eq_refl).
Defined.

Lemma run_command_disconnect_frame_witness :
  disconnects (new_events e01_device (snd (run_command (lit "1I") e01_device))) = 0
  /\ _conn (snd (run_command (lit "1I") e01_device)) <> None
  /\ state_of (snd (run_command (lit "1I") e01_device)) = Ready.
Proof.
  apply (proj1 (proj2 (run_command_disconnect_frame (lit "1I") e01_device))).
  right. eexists. reflexivity.
Defined.

Lemma attempt_login_protocol_witness :
  fst (attempt_login (opened fresh_device rejecting_peer)) = Raise auth_failed
  /\ fst (attempt_login (opened fresh_device accepting_peer)) = Ok tt.
Proof.
  split.
  - rewrite (proj1 (@attempt_login_protocol
                      (opened fresh_device rejecting_peer) rejecting_peer
                      ([CR; LF] ++ blit "(c) Copyright 2012, Extron Electronics" ++ [CR; LF])
                      ([CR; LF] ++ blit "Password") (map RxByte (blit ":"))
                      (blit "extron" ++ [LF]) ([13; 10]%N ++ lit "Password")
                      eq_refl eq_refl ltac:(first_match_tac) ltac:(discriminate)
                      eq_refl eq_refl eq_refl eq_refl) eq_refl).
    reflexivity.
  - rewrite (proj2 (proj2 (@attempt_login_protocol
                      (opened fresh_device accepting_peer) accepting_peer
                      ([CR; LF] ++ blit "(c) Copyright 2012, Extron Electronics" ++ [CR; LF])
                      ([CR; LF] ++ blit "Login Ad")
                      (map RxByte (blit "ministrator" ++ [CR; LF]))
                      (blit "extron" ++ [LF]) ([13; 10]%N ++ lit "Login Ad")
                      eq_refl eq_refl ltac:(first_match_tac) ltac:(discriminate)
                      eq_refl eq_refl eq_refl eq_refl)
                    ltac:(intro H; vm_compute in H; discriminate H))
               (blit "ministrator" ++ [CR]) [] eq_refl
               ltac:(first_match_tac) ltac:(discriminate)).
    reflexivity.
Defined.

Lemma credential_written_once_witness :
  exists wire,
    encode (lit "extron" ++ newline) = Some wire
    /\ writes (new_events (opened fresh_device rejecting_peer)
                 (snd (attempt_login (opened fresh_device rejecting_peer))))
       = [EvWrite wire].
Proof.
  apply (proj2 (proj2 (proj2 (credential_written_once
                                 (opened fresh_device rejecting_peer))))).
  right. eexists. reflexivity.
Defined.

Lemma connect_authentication_failure_witness :
  fst (connect rejecting_peer fresh_device) = Raise auth_failed
  /\ state_of (snd (connect rejecting_peer fresh_device)) = Disconnected.
Proof.
  pose proof (@connect_authentication_failure rejecting_peer fresh_device
                (lit "Authentication failed, probably wrong password")
                (snd (attempt_login (opened fresh_device rejecting_peer)))
                ltac:(cbn; lia) eq_refl) as (_ & _ & H & Hs & _).
  rewrite H. split; [reflexivity | exact Hs].
Defined.

Lemma handshake_timeout_witness :
  fst (connect mute_peer fresh_device) = Raise TimeoutError
  /\ state_of (snd (connect mute_peer fresh_device)) = Disconnected.
Proof.
  pose proof (handshake_timeout mute_peer fresh_device (or_intror eq_refl))
    as (_ & _ & _ & H & Hs & _).
  split; assumption.
Defined.

(** * Further properties of the module *)

(** ** More on command execution *)

Lemma run_command_handler_raises e d : exists e', fst (run_command_handler e d) = Raise e'.
Proof. destruct e; cbn; eauto. Qed.

(** [run_command] on a peer whose next bytes are one line and CR LF. *)
Lemma run_command_line cmd d c wire raw line rest :
  _conn d = Some c ->
  (0 < _timeout d)%Z ->
  encode (cmd ++ newline) = Some wire ->
  drain_ready c = true ->
  incoming c = map RxByte (raw ++ [CR; LF]) ++ rest ->
  first_match [CR; LF] (raw ++ [CR; LF]) ->
  decode raw = Some line ->
  run_command cmd d =
  (if is_error_response (strip line)
   then Raise (response_error (strip line))
   else Ok (strip line),
   touch d (mkConnection rest (outgoing c ++ wire) (tl (tx_script c)))
         [EvWrite wire; EvDrain; EvReadUntil crlf]).
Proof.
  intros E Ht Hw Hd Hin Hfirst Hdec.
  rewrite run_command_unfold.
  rewrite (@command_cycle_line cmd d c wire raw line rest E Ht Hw Hd Hin Hfirst Hdec).
  destruct (is_error_response (strip line)); reflexivity.
Qed.

(** X1. Whatever [run_command] returns is already stripped and is not an
    error code, and the call has left the session as it was: handle set,
    state unchanged, no [disconnect]. *)
Theorem run_command_returns_clean cmd d r d' :
  run_command cmd d = (Ok r, d') ->
  strip r = r
  /\ is_error_response r = false
  /\ state_of d' = state_of d
  /\ _conn d' <> None
  /\ disconnects (new_events d d') = 0.
Proof.
  rewrite run_command_unfold.
  destruct (command_cycle_frame cmd d) as (Hs & _ & Hopen).
  destruct (command_cycle cmd d) as [[[resp|]|e] d1]; cbn [fst snd] in *.
  - destruct (is_error_response (strip resp)) eqn:Herr; [discriminate|].
    intro H. injection H as <- <-.
    split; [apply strip_idempotent|]. split; [exact Herr|].
    split; [apply same_session_state; exact Hs|].
    split; [|apply same_session_quiet; exact Hs].
    destruct (_conn d) as [c|] eqn:E.
    + eapply same_session_open; eauto.
    + exfalso. eapply Hopen; reflexivity.
  - discriminate.
  - intro H. destruct (run_command_handler_raises e d1) as (e' & He').
    rewrite H in He'. discriminate He'.
Qed.

Lemma encode_surrogate (s : str) (c : N) :
  In c s -> (55296 <= c <= 57343)%N -> encode s = None.
Proof.
  intros Hin Hc. induction s as [|x s IH]; [contradiction|].
  cbn [encode]. destruct Hin as [->|Hin].
  - unfold encode_char.
    destruct (N.ltb_spec c 128); [lia|].
    destruct (N.ltb_spec c 2048); [lia|].
    destruct (N.ltb_spec c 65536); [|lia].
    destruct (N.leb_spec 55296 c); [|lia].
    destruct (N.leb_spec c 57343); [|lia].
    reflexivity.
  - rewrite (IH Hin). destruct (encode_char x); reflexivity.
Qed.

(** X2. Two commands in a row on a peer that sends two lines: the first
    call returns the first line and leaves the second in the buffer, the
    second call returns it; both commands have gone out, in order. *)
Theorem run_command_twice c1 c2 d c w1 w2 raw1 raw2 line1 line2 rest :
  _conn d = Some c ->
  (0 < _timeout d)%Z ->
  encode (c1 ++ newline) = Some w1 ->
  encode (c2 ++ newline) = Some w2 ->
  tx_script c = [] ->
  incoming c = map RxByte (raw1 ++ [CR; LF]) ++ map RxByte (raw2 ++ [CR; LF]) ++ rest ->
  first_match [CR; LF] (raw1 ++ [CR; LF]) ->
  first_match [CR; LF] (raw2 ++ [CR; LF]) ->
  decode raw1 = Some line1 ->
  decode raw2 = Some line2 ->
  is_error_response (strip line1) = false ->
  is_error_response (strip line2) = false ->
  (r1 <- run_command c1 ;; r2 <- run_command c2 ;; ret (r1, r2)) d =
  (Ok (strip line1, strip line2),
   touch d (mkConnection rest (outgoing c ++ w1 ++ w2) [])
         [EvWrite w1; EvDrain; EvReadUntil crlf;
          EvWrite w2; EvDrain; EvReadUntil crlf]).
Proof.
  intros E Ht Hw1 Hw2 Htx Hin Hf1 Hf2 Hd1 Hd2 Hok1 Hok2.
  assert (Hready : drain_ready c = true) by (unfold drain_ready; now rewrite Htx).
  unfold bind at 1.
  rewrite (@run_command_line c1 d c w1 raw1 line1 _ E Ht Hw1 Hready Hin Hf1 Hd1).
  rewrite Hok1, Htx. cbn [tl].
  set (k1 := mkConnection _ _ _).
  unfold bind at 1.
  rewrite (@run_command_line c2 (touch d k1 _) k1 w2 raw2 line2 rest
             eq_refl Ht Hw2 eq_refl eq_refl Hf2 Hd2).
  rewrite Hok2, touch_touch. subst k1. cbn [outgoing tx_script tl ret app].
  rewrite <- app_assoc. reflexivity.
Qed.

(** X3. A [ResponseError] does not cost the session: when the peer's
    first line is an error code and its next line is not, the first call
    raises [ResponseError] and the same command or another one, sent on
    the device object as that call left it, returns the next line. *)
Theorem run_command_after_error c1 c2 d c w1 w2 raw1 raw2 line1 line2 rest :
  _conn d = Some c ->
  (0 < _timeout d)%Z ->
  encode (c1 ++ newline) = Some w1 ->
  encode (c2 ++ newline) = Some w2 ->
  tx_script c = [] ->
  incoming c = map RxByte (raw1 ++ [CR; LF]) ++ map RxByte (raw2 ++ [CR; LF]) ++ rest ->
  first_match [CR; LF] (raw1 ++ [CR; LF]) ->
  first_match [CR; LF] (raw2 ++ [CR; LF]) ->
  decode raw1 = Some line1 ->
  decode raw2 = Some line2 ->
  is_error_response (strip line1) = true ->
  is_error_response (strip line2) = false ->
  fst (run_command c1 d)
  = Raise (ResponseError (lit "Command failed with error code " ++ strip line1))
  /\ run_command c2 (snd (run_command c1 d)) =
     (Ok (strip line2),
      touch d (mkConnection rest (outgoing c ++ w1 ++ w2) [])
            [EvWrite w1; EvDrain; EvReadUntil crlf;
             EvWrite w2; EvDrain; EvReadUntil crlf]).
Proof.
  intros E Ht Hw1 Hw2 Htx Hin Hf1 Hf2 Hd1 Hd2 Herr1 Hok2.
  assert (Hready : drain_ready c = true) by (unfold drain_ready; now rewrite Htx).
  rewrite (@run_command_line c1 d c w1 raw1 line1 _ E Ht Hw1 Hready Hin Hf1 Hd1).
  rewrite Herr1, Htx. cbn [fst snd tl]. split; [reflexivity|].
  set (k1 := mkConnection _ _ _).
  rewrite (@run_command_line c2 (touch d k1 _) k1 w2 raw2 line2 rest
             eq_refl Ht Hw2 eq_refl eq_refl Hf2 Hd2).
  rewrite Hok2, touch_touch. subst k1. cbn [outgoing tx_script tl app].
  rewrite <- app_assoc. reflexivity.
Qed.

(** X4. A timeout of zero or less makes the device object useless:
    every [run_command] disconnects and raises "Command timed out,
    disconnecting" without having sent anything, and [after_connect]
    raises [TimeoutError] without reading or writing. *)
Theorem nonpositive_timeout cmd d :
  (_timeout d <= 0)%Z ->
  run_command cmd d = (Raise timed_out_error, dropped d)
  /\ after_connect d = (Raise TimeoutError, d).
Proof.
  intro Ht. rewrite run_command_unfold, after_connect_unfold.
  unfold command_cycle, wait_for.
  destruct (Z.leb_spec (_timeout d) 0) as [_|Hlt]; [|lia].
  split; reflexivity.
Qed.

(** X5. A command that holds a surrogate code point cannot be encoded:
    on an open session [run_command] raises [UnicodeEncodeError], which
    none of its [except] clauses catches; nothing has been sent and the
    device object is untouched. *)
Theorem run_command_unencodable cmd d c x :
  _conn d = Some c ->
  (0 < _timeout d)%Z ->
  In x cmd ->
  (55296 <= x <= 57343)%N ->
  run_command cmd d = (Raise UnicodeEncodeError, d).
Proof.
  intros E Ht Hin Hx.
  assert (Hw : encode (cmd ++ newline) = None)
    by (apply encode_surrogate with x; [apply in_or_app; now left | exact Hx]).
  rewrite run_command_unfold. unfold command_cycle, wait_for.
  destruct (Z.leb_spec (_timeout d) 0) as [Hle|_]; [lia|].
  unfold _run_command_internal, bind. rewrite (the_conn_run E), Hw. reflexivity.
Qed.

(** ** More on the handshake *)

Lemma readexactly_loop_short (block : bytes) :
  forall n acc,
    length block < n ->
    readexactly_loop n acc (map RxByte block) = (ReadEof (acc ++ block), []).
Proof.
  induction block as [|b block IH]; intros n acc Hlen; cbn in Hlen.
  - destruct n; [lia|]. cbn. rewrite app_nil_r. reflexivity.
  - destruct n; [lia|]. cbn. rewrite IH by lia. rewrite <- app_assoc. reflexivity.
Qed.

Lemma read_until_loop_eof (delim data : bytes) :
  forall acc,
    (forall k, 0 < k <= length data -> endswith (acc ++ firstn k data) delim = false) ->
    read_until_loop delim acc (map RxByte data) = (ReadEof (acc ++ data), []).
Proof.
  induction data as [|b data IH]; intros acc Hno; cbn [map read_until_loop].
  - rewrite app_nil_r. reflexivity.
  - specialize (Hno 1) as H1. cbn [firstn] in H1. rewrite H1 by (cbn; lia).
    rewrite IH.
    + rewrite <- app_assoc. reflexivity.
    + intros k Hk. specialize (Hno (S k)). cbn [firstn] in Hno.
      rewrite <- app_assoc. apply Hno. cbn. lia.
Qed.

(** The handshake up to the fixed-width read, on a peer that prompts and
    accepts the write. *)
Lemma attempt_login_to_read d c junk after wire :
  _conn d = Some c ->
  incoming c = map RxByte (junk ++ blit "Password:") ++ after ->
  first_match (blit "Password:") (junk ++ blit "Password:") ->
  decode junk <> None ->
  encode (_password d ++ newline) = Some wire ->
  drain_ready c = true ->
  attempt_login d =
  (resp <- reader_readexactly 10 ;;
   text <- of_option UnicodeDecodeError (decode resp) ;;
   (if str_eqb (strip text) (lit "Password") then raise auth_failed else ret tt) ;;
   _read_until newline ;;
   ret tt)
    (touch d (mkConnection after (outgoing c ++ wire) (tl (tx_script c)))
           [EvReadUntil password_prompt; EvWrite wire; EvDrain]).
Proof.
  intros E Hin Hfirst Hjunk Hw Hd.
  unfold attempt_login at 1. unfold bind at 1.
  rewrite (read_until_run E password_prompt).
  change (encode password_prompt) with (Some (blit "Password:")).
  cbv beta iota. rewrite Hin, read_until_loop_line by exact Hfirst.
  cbn [fst snd]. destruct (decode junk) as [j|]; [clear Hjunk | congruence].
  set (c0 := mkConnection _ _ _).
  unfold bind at 1.
  rewrite (the_conn_run (d := touch d c0 _) (c := c0) eq_refl).
  unfold bind at 1, gets. unfold bind at 1.
  cbn [_password touch]. rewrite Hw. cbn [of_option ret].
  unfold bind at 1.
  rewrite (writer_write_run (d := touch d c0 _) (c := c0) eq_refl), touch_touch.
  set (c1 := mkConnection _ _ _).
  unfold bind at 1.
  rewrite (writer_drain_run (d := touch d c1 _) (c := c1) eq_refl).
  unfold drain_ready in Hd. subst c1 c0. cbn [tx_script incoming outgoing].
  destruct (tx_script c) as [|[| |f] script]; try discriminate;
    rewrite touch_touch; reflexivity.
Qed.

(** X6. A peer that closes the connection less than ten bytes after the
    password was sent makes the handshake fail with
    [IncompleteReadError], whatever those bytes are: it is not reported
    as [AuthenticationError]. *)
Theorem attempt_login_short_read d c junk block wire :
  _conn d = Some c ->
  incoming c = map RxByte (junk ++ blit "Password:") ++ map RxByte block ->
  first_match (blit "Password:") (junk ++ blit "Password:") ->
  decode junk <> None ->
  encode (_password d ++ newline) = Some wire ->
  drain_ready c = true ->
  length block < 10 ->
  attempt_login d =
  (Raise IncompleteReadError,
   touch d (mkConnection [] (outgoing c ++ wire) (tl (tx_script c)))
         [EvReadUntil (lit "Password:"); EvWrite wire; EvDrain; EvReadExactly 10]).
Proof.
  intros E Hin Hfirst Hjunk Hw Hd Hlen.
  rewrite (@attempt_login_to_read d c junk (map RxByte block) wire
             E Hin Hfirst Hjunk Hw Hd).
  unfold bind at 1. set (c2 := mkConnection _ _ _).
  rewrite (reader_readexactly_run (d := touch d c2 _) (c := c2) eq_refl 10), touch_touch.
  subst c2. cbn [incoming outgoing tx_script].
  rewrite readexactly_loop_short by exact Hlen. reflexivity.
Qed.

(** X7. The handshake does not look at what its last read returns: when
    the ten bytes do not strip to "Password" and the stream then ends
    before any newline, [attempt_login] still returns normally. *)
Theorem attempt_login_without_banner d c junk block tail wire text :
  _conn d = Some c ->
  incoming c = map RxByte (junk ++ blit "Password:") ++ map RxByte block
               ++ map RxByte tail ->
  first_match (blit "Password:") (junk ++ blit "Password:") ->
  decode junk <> None ->
  encode (_password d ++ newline) = Some wire ->
  drain_ready c = true ->
  length block = 10 ->
  decode block = Some text ->
  strip text <> lit "Password" ->
  no_match [LF] tail ->
  attempt_login d =
  (Ok tt,
   touch d (mkConnection [] (outgoing c ++ wire) (tl (tx_script c)))
         [EvReadUntil (lit "Password:"); EvWrite wire; EvDrain; EvReadExactly 10;
          EvReadUntil [10%N]]).
Proof.
  intros E Hin Hfirst Hjunk Hw Hd Hlen Hdec Hne Htail.
  rewrite (@attempt_login_to_check d c junk block (map RxByte tail) wire text
             E Hin Hfirst Hjunk Hw Hd Hlen Hdec).
  unfold str_eqb.
  destruct (list_eq_dec N.eq_dec (strip text) (lit "Password")) as [Heq|_];
    [contradiction|].
  cbv beta iota delta [bind ret].
  set (c1 := mkConnection _ _ _).
  rewrite (read_until_run (d := touch d c1 _) (c := c1) eq_refl newline).
  change (encode newline) with (Some [LF]). cbv beta iota. rewrite touch_touch.
  subst c1. cbn [incoming outgoing tx_script].
  rewrite read_until_loop_eof by exact Htail. reflexivity.
Qed.

(** ** Numerals *)

Lemma digit_facts (c : N) :
  is_digit c ->
  digit_value c = Some (c - 48)%N
  /\ (c =? 95)%N = false /\ (c =? 43)%N = false /\ (c =? 45)%N = false
  /\ (c <? 128)%N = true /\ c_isspace c = false.
Proof.
  unfold is_digit, digit_value, c_isspace. intros [Hlo Hhi].
  destruct (N.leb_spec 48 c); [|lia]. destruct (N.leb_spec c 57); [|lia].
  destruct (N.leb_spec 9 c); [|lia]. destruct (N.leb_spec c 13); [lia|].
  repeat split; try reflexivity;
    first [apply N.eqb_neq; lia | apply N.ltb_lt; lia].
Qed.

Lemma scan_digits (ds : str) :
  Forall is_digit ds ->
  forall prev k v,
    exists p,
      scan ds prev k v = Some (digits_value ds v, k + length ds, p, [])
      /\ (p = prev \/ is_digit p).
Proof.
  induction 1 as [|c ds Hc Hds IH]; intros prev k v; cbn [scan digits_value fold_left].
  - exists prev. rewrite Nat.add_0_r. auto.
  - destruct (digit_facts Hc) as (-> & -> & _).
    destruct (IH c (S k) (10 * v + (c - 48))%N) as (p & -> & Hp).
    exists p. cbn [length]. rewrite Nat.add_succ_r. split; [reflexivity|].
    right. destruct Hp as [->|Hp]; assumption.
Qed.

Lemma digits_value_snoc (ds : str) (c v : N) :
  digits_value (ds ++ [c]) v = (10 * digits_value ds v + (c - 48))%N.
Proof. unfold digits_value. rewrite fold_left_app. reflexivity. Qed.

Lemma digits_of_acc (fuel : nat) :
  forall n acc, digits_of fuel n acc = digits_of fuel n [] ++ acc.
Proof.
  induction fuel as [|fuel IH]; intros n acc; cbn [digits_of]; [reflexivity|].
  destruct (n <? 10)%N; [reflexivity|].
  rewrite IH, (IH _ [_]), <- app_assoc. reflexivity.
Qed.

Lemma digits_of_digits (fuel : nat) :
  forall n acc, Forall is_digit acc -> Forall is_digit (digits_of fuel n acc).
Proof.
  induction fuel as [|fuel IH]; intros n acc Hacc; cbn [digits_of]; [exact Hacc|].
  assert (Hd : is_digit (48 + n mod 10)%N).
  { unfold is_digit.
    assert (H : (n mod 10 < 10)%N) by (apply N.mod_upper_bound; discriminate).
    revert H. generalize (n mod 10)%N. intros m H. lia. }
  destruct (n <? 10)%N; [|apply IH]; constructor; assumption.
Qed.

Lemma digits_of_nonempty (fuel : nat) (n : N) :
  exists c t, digits_of (S fuel) n [] = c :: t /\ is_digit c.
Proof.
  pose proof (@digits_of_digits (S fuel) n [] (Forall_nil _)) as H.
  cbn [digits_of] in *. destruct (n <? 10)%N.
  - inversion H; subst. eauto.
  - rewrite digits_of_acc in *. destruct (digits_of fuel (n / 10) []) as [|c t].
    + cbn in *. inversion H; subst. eauto.
    + cbn in *. inversion H; subst. eauto.
Qed.

Lemma digits_of_value (fuel : nat) :
  forall n, (n < 2 ^ N.of_nat fuel)%N -> digits_value (digits_of fuel n []) 0 = n.
Proof.
  induction fuel as [|fuel IH]; intros n Hn.
  - cbn in Hn. cbn. lia.
  - cbn [digits_of]. destruct (N.ltb_spec n 10) as [Hlt|Hge].
    + unfold digits_value. cbn [fold_left].
      rewrite N.mod_small by exact Hlt. lia.
    + rewrite digits_of_acc, digits_value_snoc, IH.
      * rewrite (N.div_mod n 10) at 3 by discriminate.
        assert (H : (n mod 10 < 10)%N) by (apply N.mod_upper_bound; discriminate).
        revert H. generalize (n mod 10)%N (n / 10)%N. intros m q H. lia.
      * rewrite Nat2N.inj_succ, N.pow_succ_r' in Hn.
        apply N.Div0.div_lt_upper_bound. lia.
Qed.

Lemma decimal_N_value (n : N) : digits_value (decimal_N n) 0 = n.
Proof.
  apply digits_of_value. rewrite Nat2N.inj_succ, N2Nat.id.
  destruct n as [|p]; [reflexivity|].
  apply N.log2_spec. reflexivity.
Qed.

Lemma decimal_N_digits (n : N) : Forall is_digit (decimal_N n).
Proof. apply digits_of_digits. constructor. Qed.

Lemma digits_ascii (ds : str) :
  Forall is_digit ds -> forallb (fun c => (c <? 128)%N) ds = true.
Proof.
  induction 1 as [|c ds Hc _ IH]; [reflexivity|].
  cbn. destruct (digit_facts Hc) as (_ & _ & _ & _ & -> & _). exact IH.
Qed.

(** Reading back the numeral of a natural number. *)
Lemma py_int_digits (py : interpreter) (negative : bool) (n : N) :
  over_limit py (length (decimal_N n)) = false ->
  (let '(neg, a) := (negative, decimal_N n) in
   if starts_with 95 a then None
   else
     match scan a 0 0 0 with
     | None => None
     | Some (value, digits, prev, rest) =>
         if (prev =? 95)%N then None
         else if (digits =? 0)%nat then None
         else if over_limit py digits then None
         else
           match skip_space rest with
           | [] => Some (if neg then (- Z.of_N value)%Z else Z.of_N value)
           | _ => None
           end
     end)
  = Some (if negative then (- Z.of_N n)%Z else Z.of_N n).
Proof.
  intro Hlim. cbv beta iota.
  destruct (scan_digits (decimal_N_digits n) 0 0 0) as (p & Hscan & Hp).
  destruct (digits_of_nonempty (N.to_nat (N.log2 n)) n) as (c & t & Hct & Hc).
  fold (decimal_N n) in Hct.
  assert (Hstart : starts_with 95 (decimal_N n) = false).
  { rewrite Hct. cbn. apply (digit_facts Hc). }
  rewrite Hstart, Hscan, decimal_N_value. cbn [Nat.add].
  assert (Hprev : (p =? 95)%N = false).
  { destruct Hp as [->|Hp]; [reflexivity | apply (digit_facts Hp)]. }
  rewrite Hprev, Hlim.
  rewrite Hct at 1. reflexivity.
Qed.

(** [int(str(n)) == n]: the numeral of an integer reads back as that
    integer. *)
Lemma py_int_decimal (py : interpreter) (z : Z) :
  over_limit py (length (decimal_N (Z.abs_N z))) = false ->
  py_int py (decimal z) = Some z.
Proof.
  intro Hlim. unfold py_int, to_ascii.
  destruct z as [|p|p]; cbn [decimal Z.to_N Z.abs_N] in *.
  - reflexivity.
  - rewrite (digits_ascii (decimal_N_digits (Npos p))).
    destruct (digits_of_nonempty (N.to_nat (N.log2 (Npos p))) (Npos p))
      as (c & t & Hct & Hc).
    fold (decimal_N (Npos p)) in Hct.
    destruct (digit_facts Hc) as (_ & _ & H43 & H45 & _ & Hsp).
    assert (Hsplit : split_sign (skip_space (decimal_N (Npos p)))
                     = (false, decimal_N (Npos p))).
    { rewrite Hct. cbn [skip_space]. rewrite Hsp. cbn [split_sign].
      rewrite H43, H45. reflexivity. }
    rewrite Hsplit. exact (@py_int_digits py false (Npos p) Hlim).
  - cbn [forallb]. change (45 <? 128)%N with true. cbn [andb].
    rewrite (digits_ascii (decimal_N_digits (Npos p))).
    cbn [skip_space c_isspace split_sign].
    change (c_isspace 45) with false. cbv beta iota.
    change (45 =? 43)%N with false. change (45 =? 45)%N with true. cbv beta iota.
    exact (@py_int_digits py true (Npos p) Hlim).
Qed.

Lemma py_int_empty (py : interpreter) : py_int py [] = None.
Proof. reflexivity. Qed.

Lemma py_int_no_start (py : interpreter) (x : N) (t : str) :
  no_numeral_start x -> py_int py (x :: t) = None.
Proof.
  intros (Hx & Hsp & H43 & H45 & Hdig).
  assert (Hhead : exists t', to_ascii py (x :: t) = x :: t').
  { unfold to_ascii. destruct (forallb _ (x :: t)); [eauto|].
    cbn [transform]. destruct (N.ltb_spec x 127); [eauto | lia]. }
  destruct Hhead as (t' & Ht'). unfold py_int. rewrite Ht'.
  cbn [skip_space]. rewrite Hsp. cbn [split_sign].
  apply N.eqb_neq in H43, H45. rewrite H43, H45.
  cbn [starts_with scan]. destruct (x =? 95)%N; [reflexivity|].
  rewrite Hdig. reflexivity.
Qed.

Lemma decimal_head (z : Z) :
  exists c t, decimal z = c :: t /\ (is_digit c \/ c = 45%N).
Proof.
  destruct z as [|p|p]; cbn [decimal].
  - exists 48%N, []. split; [reflexivity|]. left. unfold is_digit. lia.
  - destruct (digits_of_nonempty (N.to_nat (N.log2 (Z.to_N (Z.pos p))))
                (Z.to_N (Z.pos p))) as (c & t & H & Hc).
    exists c, t. split; [exact H | now left].
  - eauto.
Qed.

Lemma decimal_not_error (z : Z) : is_error_response (decimal z) = false.
Proof.
  unfold is_error_response, Re.match_. rewrite run_error_regexp.
  destruct (decimal_head z) as (c & t & -> & Hc).
  assert (He : (c =? 69)%N = false).
  { apply N.eqb_neq. destruct Hc as [[? ?]| ->]; lia. }
  destruct t as [|d1 [|d2 rest]]; try reflexivity. rewrite He. reflexivity.
Qed.

(** ** The device wrappers *)

(** X8. Every wrapper that reads a number ([view_input] of the three
    device classes, [get_volume_level], [get_temperature]) sends its
    command and returns the integer whose decimal numeral the device
    answered, negative ones included, with the session left open. *)
Theorem wrappers_read_numbers (py : interpreter) :
  reads_numbers py (lit "$") (SurroundSoundProcessor.view_input py)
  /\ reads_numbers py (lit "!") (HDMISwitcher.view_input py)
  /\ reads_numbers py (lit "$") (DMP64.view_input py)
  /\ reads_numbers py (lit "V") (SurroundSoundProcessor.get_volume_level py)
  /\ reads_numbers py (lit "V") (DMP64.get_volume_level py)
  /\ reads_numbers py (ESC ++ lit "20STAT") (SurroundSoundProcessor.get_temperature py)
  /\ reads_numbers py (ESC ++ lit "20STAT") (DMP64.get_temperature py).
Proof.
  assert (H : forall cmd, reads_numbers py cmd (int_of py (run_command cmd))).
  { intros cmd d c wire raw line rest n E Ht Hw Hd Hin Hfirst Hdec Hnum Hlim.
    unfold int_of.
    rewrite (@run_command_line cmd d c wire raw line rest E Ht Hw Hd Hin Hfirst Hdec).
    rewrite Hnum, decimal_not_error, (py_int_decimal py n Hlim). reflexivity. }
  repeat split; apply H.
Qed.

(** X9. The same wrappers raise [ValueError] when the answer is empty or
    starts with a character that cannot start a numeral (and is no error
    code): [run_command] has returned, so nothing is caught, the line is
    consumed and the session stays open. *)
Theorem wrappers_refuse_text (py : interpreter) :
  refuses_text py (lit "$") (SurroundSoundProcessor.view_input py)
  /\ refuses_text py (lit "!") (HDMISwitcher.view_input py)
  /\ refuses_text py (lit "$") (DMP64.view_input py)
  /\ refuses_text py (lit "V") (SurroundSoundProcessor.get_volume_level py)
  /\ refuses_text py (lit "V") (DMP64.get_volume_level py)
  /\ refuses_text py (ESC ++ lit "20STAT") (SurroundSoundProcessor.get_temperature py)
  /\ refuses_text py (ESC ++ lit "20STAT") (DMP64.get_temperature py).
Proof.
  assert (H : forall cmd, refuses_text py cmd (int_of py (run_command cmd))).
  { intros cmd d c wire raw line rest E Ht Hw Hd Hin Hfirst Hdec Htext.
    unfold int_of.
    rewrite (@run_command_line cmd d c wire raw line rest E Ht Hw Hd Hin Hfirst Hdec).
    destruct Htext as [->|(x & t & -> & Hx & ->)]; [reflexivity|].
    rewrite (py_int_no_start py t Hx). reflexivity. }
  repeat split; apply H.
Qed.

(** X10. [is_muted] is true exactly when the stripped answer is the one
    character "1"; every other answer that is no error code, "0" as well
    as "01" or plain text, gives false without any error. *)
Theorem is_muted_exact d c raw line rest :
  _conn d = Some c ->
  (0 < _timeout d)%Z ->
  drain_ready c = true ->
  incoming c = map RxByte (raw ++ [CR; LF]) ++ rest ->
  first_match [CR; LF] (raw ++ [CR; LF]) ->
  decode raw = Some line ->
  is_error_response (strip line) = false ->
  let after :=
    touch d (mkConnection rest (outgoing c ++ blit "Z" ++ [LF]) (tl (tx_script c)))
          [EvWrite (blit "Z" ++ [LF]); EvDrain; EvReadUntil crlf] in
  (strip line = lit "1" ->
   SurroundSoundProcessor.is_muted d = (Ok true, after)
   /\ DMP64.is_muted d = (Ok true, after))
  /\ (strip line <> lit "1" ->
      SurroundSoundProcessor.is_muted d = (Ok false, after)
      /\ DMP64.is_muted d = (Ok false, after)).
Proof.
  intros E Ht Hd Hin Hfirst Hdec Hok after.
  assert (Hrun : run_command (lit "Z") d = (Ok (strip line), after)).
  { rewrite (@run_command_line (lit "Z") d c (blit "Z" ++ [LF]) raw line rest
               E Ht eq_refl Hd Hin Hfirst Hdec).
    rewrite Hok. reflexivity. }
  unfold SurroundSoundProcessor.is_muted, DMP64.is_muted, bind.
  rewrite Hrun. cbn [ret]. unfold str_eqb.
  destruct (list_eq_dec N.eq_dec (strip line) (lit "1")) as [Heq|Hne].
  - split; [intros _; split; reflexivity | intro H; contradiction].
  - split; [intro H; contradiction | intros _; split; reflexivity].
Qed.





(** ** A whole session *)

Lemma attempt_login_accepts d c junk block banner rest wire text :
  _conn d = Some c ->
  incoming c = map RxByte (junk ++ blit "Password:") ++ map RxByte block
               ++ map RxByte (banner ++ [LF]) ++ rest ->
  first_match (blit "Password:") (junk ++ blit "Password:") ->
  decode junk <> None ->
  encode (_password d ++ newline) = Some wire ->
  drain_ready c = true ->
  length block = 10 ->
  decode block = Some text ->
  strip text <> lit "Password" ->
  first_match [LF] (banner ++ [LF]) ->
  decode banner <> None ->
  attempt_login d =
  (Ok tt,
   touch d (mkConnection rest (outgoing c ++ wire) (tl (tx_script c)))
         (login_steps wire)).
Proof.
  intros E Hin Hfirst Hjunk Hw Hd Hlen Hdec Hne Hline Hbanner.
  rewrite (@attempt_login_to_check d c junk block
             (map RxByte (banner ++ [LF]) ++ rest) wire text
             E Hin Hfirst Hjunk Hw Hd Hlen Hdec).
  unfold str_eqb.
  destruct (list_eq_dec N.eq_dec (strip text) (lit "Password")) as [Heq|_];
    [contradiction|].
  cbv beta iota delta [bind ret].
  set (c1 := mkConnection _ _ _).
  rewrite (read_until_run (d := touch d c1 _) (c := c1) eq_refl newline).
  change (encode newline) with (Some [LF]). cbv beta iota. rewrite touch_touch.
  subst c1. cbn [incoming outgoing tx_script].
  rewrite read_until_loop_line by exact Hline. cbn [fst snd].
  destruct (decode banner); [reflexivity | congruence].
Qed.

(** X14. Handshake and first command fit together: the handshake takes
    the prompt, ten bytes and the rest of that line off the stream, no
    more, so that the first [run_command] after it gets the first line
    the device sends next. *)
Theorem login_then_command cmd d c junk block banner raw rest wire w text line :
  _conn d = Some c ->
  (0 < _timeout d)%Z ->
  tx_script c = [] ->
  incoming c = map RxByte (junk ++ blit "Password:") ++ map RxByte block
               ++ map RxByte (banner ++ [LF])
               ++ map RxByte (raw ++ [CR; LF]) ++ rest ->
  first_match (blit "Password:") (junk ++ blit "Password:") ->
  decode junk <> None ->
  encode (_password d ++ newline) = Some wire ->
  length block = 10 ->
  decode block = Some text ->
  strip text <> lit "Password" ->
  first_match [LF] (banner ++ [LF]) ->
  decode banner <> None ->
  encode (cmd ++ newline) = Some w ->
  first_match [CR; LF] (raw ++ [CR; LF]) ->
  decode raw = Some line ->
  is_error_response (strip line) = false ->
  (after_connect ;; run_command cmd) d =
  (Ok (strip line),
   touch d (mkConnection rest (outgoing c ++ wire ++ w) [])
         (login_steps wire ++ [EvWrite w; EvDrain; EvReadUntil crlf])).
Proof.
  intros E Ht Htx Hin Hfirst Hjunk Hw Hlen Hdec Hne Hline Hbanner Hcmd Hresp Hraw Hok.
  assert (Hready : drain_ready c = true) by (unfold drain_ready; now rewrite Htx).
  unfold bind. rewrite after_connect_unfold.
  destruct (Z.leb_spec (_timeout d) 0) as [Hle|_]; [lia|].
  rewrite (@attempt_login_accepts d c junk block banner
             (map RxByte (raw ++ [CR; LF]) ++ rest) wire text
             E Hin Hfirst Hjunk Hw Hready Hlen Hdec Hne Hline Hbanner).
  rewrite Htx. cbn [tl]. set (k1 := mkConnection _ _ _).
  rewrite (@run_command_line cmd (touch d k1 _) k1 w raw line rest
             eq_refl Ht Hcmd eq_refl eq_refl Hresp Hraw).
  rewrite Hok, touch_touch. subst k1. cbn [outgoing tx_script tl].
  rewrite <- app_assoc. reflexivity.
Qed.

(** ** The further properties on the sample peers *)

Lemma run_command_returns_clean_witness :
  strip (lit "SSP-001") = lit "SSP-001"
  /\ is_error_response (lit "SSP-001") = false
  /\ state_of (snd (run_command (lit "1I") ssp_device)) = state_of ssp_device
  /\ _conn (snd (run_command (lit "1I") ssp_device)) <> None
  /\ disconnects (new_events ssp_device (snd (run_command (lit "1I") ssp_device))) = 0.
Proof.
  exact (@run_command_returns_clean (lit "1I") ssp_device (lit "SSP-001")
           (snd (run_command (lit "1I") ssp_device)) eq_refl).
Defined.

Lemma run_command_twice_witness :
  (r1 <- run_command (lit "1I") ;; r2 <- run_command (lit "Q") ;; ret (r1, r2))
    (two_line_device (blit "SSP-001") (blit "1.02"))
  = (Ok (lit "SSP-001", lit "1.02"),
     touch (two_line_device (blit "SSP-001") (blit "1.02"))
           (mkConnection [] (blit "1I" ++ [LF] ++ blit "Q" ++ [LF]) [])
           [EvWrite (blit "1I" ++ [LF]); EvDrain; EvReadUntil crlf;
            EvWrite (blit "Q" ++ [LF]); EvDrain; EvReadUntil crlf]).
Proof.
  exact (@run_command_twice (lit "1I") (lit "Q")
           (two_line_device (blit "SSP-001") (blit "1.02"))
           (peer (blit "SSP-001" ++ [CR; LF] ++ blit "1.02" ++ [CR; LF]) [])
           (blit "1I" ++ [LF]) (blit "Q" ++ [LF])
           (blit "SSP-001") (blit "1.02") (lit "SSP-001") (lit "1.02") []
           eq_refl eq_refl eq_refl eq_refl eq_refl eq_refl
           ltac:(first_match_tac) ltac:(first_match_tac)
           eq_refl eq_refl eq_refl eq_refl).
Defined.

Lemma run_command_after_error_witness :
  fst (run_command (lit "9$") (two_line_device (blit "E01") (blit "3")))
  = Raise (ResponseError (lit "Command failed with error code E01"))
  /\ fst (run_command (lit "$")
            (snd (run_command (lit "9$") (two_line_device (blit "E01") (blit "3")))))
     = Ok (lit "3").
Proof.
  destruct (@run_command_after_error (lit "9$") (lit "$")
              (two_line_device (blit "E01") (blit "3"))
              (peer (blit "E01" ++ [CR; LF] ++ blit "3" ++ [CR; LF]) [])
              (blit "9$" ++ [LF]) (blit "$" ++ [LF])
              (blit "E01") (blit "3") (lit "E01") (lit "3") []
              eq_refl eq_refl eq_refl eq_refl eq_refl eq_refl
              ltac:(first_match_tac) ltac:(first_match_tac)
              eq_refl eq_refl eq_refl eq_refl) as (H1 & H2).
  rewrite H2. split; [exact H1 | reflexivity].
Defined.

Lemma nonpositive_timeout_witness :
  run_command (lit "1I") impatient_device
  = (Raise timed_out_error, dropped impatient_device)
  /\ after_connect impatient_device = (Raise TimeoutError, impatient_device).
Proof.
  exact (nonpositive_timeout (lit "1I") impatient_device ltac:(cbn; lia)).
Defined.

Lemma run_command_unencodable_witness :
  run_command [49; 55296]%N ssp_device = (Raise UnicodeEncodeError, ssp_device).
Proof.
  apply (@run_command_unencodable [49; 55296]%N ssp_device
           (peer (blit "SSP-001" ++ [CR; LF]) []) 55296%N eq_refl eq_refl).
  - right. left. reflexivity.
  - lia.
Defined.

Lemma attempt_login_short_read_witness :
  fst (attempt_login (opened fresh_device hangup_peer)) = Raise IncompleteReadError.
Proof.
  rewrite (@attempt_login_short_read
             (opened fresh_device hangup_peer) hangup_peer
             ([CR; LF] ++ blit "(c) Copyright 2012, Extron Electronics" ++ [CR; LF])
             [CR; LF] (blit "extron" ++ [LF])
             eq_refl eq_refl ltac:(first_match_tac) ltac:(discriminate)
             eq_refl eq_refl ltac:(cbn; lia)).
  reflexivity.
Defined.

Lemma attempt_login_without_banner_witness :
  fst (attempt_login (opened fresh_device bannerless_peer)) = Ok tt.
Proof.
  rewrite (@attempt_login_without_banner
             (opened fresh_device bannerless_peer) bannerless_peer
             ([CR; LF] ++ blit "(c) Copyright 2012, Extron Electronics" ++ [CR; LF])
             ([CR; LF] ++ blit "Login Ad") [] (blit "extron" ++ [LF])
             ([13; 10]%N ++ lit "Login Ad")
             eq_refl eq_refl ltac:(first_match_tac) ltac:(discriminate)
             eq_refl eq_refl eq_refl eq_refl
             ltac:(intro H; vm_compute in H; discriminate H)
             ltac:(intros k Hk; cbn in Hk; lia)).
  reflexivity.
Defined.

Lemma wrappers_read_numbers_witness :
  fst (SurroundSoundProcessor.view_input ascii_interpreter (answering (blit "3")))
  = Returns 3%Z
  /\ fst (DMP64.get_temperature ascii_interpreter (answering (blit "-5")))
     = Returns (-5)%Z.
Proof.
  destruct (wrappers_read_numbers ascii_interpreter)
    as (Hview & _ & _ & _ & _ & _ & Htemp).
  rewrite (Hview (answering (blit "3")) (peer (blit "3" ++ [CR; LF]) [])
             (blit "$" ++ [LF]) (blit "3") (lit "3") [] 3%Z
             eq_refl eq_refl eq_refl eq_refl eq_refl
             ltac:(first_match_tac) eq_refl eq_refl eq_refl).
  rewrite (Htemp (answering (blit "-5")) (peer (blit "-5" ++ [CR; LF]) [])
             (map ascii_of_N ((ESC ++ lit "20STAT") ++ newline))
             (blit "-5") (lit "-5") [] (-5)%Z
             eq_refl eq_refl eq_refl eq_refl eq_refl
             ltac:(first_match_tac) eq_refl eq_refl eq_refl).
  split; reflexivity.
Defined.

Lemma wrappers_refuse_text_witness :
  fst (HDMISwitcher.view_input ascii_interpreter (answering (blit "")))
  = RaisesValueError
  /\ fst (SurroundSoundProcessor.get_volume_level ascii_interpreter
            (answering (blit "Vol12")))
     = RaisesValueError.
Proof.
  destruct (wrappers_refuse_text ascii_interpreter)
    as (_ & Hview & _ & Hvol & _).
  rewrite (Hview (answering (blit "")) (peer (blit "" ++ [CR; LF]) [])
             (blit "!" ++ [LF]) (blit "") (lit "") []
             eq_refl eq_refl eq_refl eq_refl eq_refl
             ltac:(first_match_tac) eq_refl (or_introl eq_refl)).
  rewrite (Hvol (answering (blit "Vol12")) (peer (blit "Vol12" ++ [CR; LF]) [])
             (blit "V" ++ [LF]) (blit "Vol12") (lit "Vol12") []
             eq_refl eq_refl eq_refl eq_refl eq_refl
             ltac:(first_match_tac) eq_refl
             ltac:(right; exists 86%N, (lit "ol12");
                   repeat split; try reflexivity; try discriminate; cbn; lia)).
  split; reflexivity.
Defined.

Lemma is_muted_exact_witness :
  fst (SurroundSoundProcessor.is_muted (answering (blit "1"))) = Ok true
  /\ fst (DMP64.is_muted (answering (blit "01"))) = Ok false.
Proof.
  destruct (@is_muted_exact (answering (blit "1")) (peer (blit "1" ++ [CR; LF]) [])
              (blit "1") (lit "1") []
              eq_refl eq_refl eq_refl eq_refl ltac:(first_match_tac) eq_refl eq_refl)
    as (Hyes & _).
  destruct (@is_muted_exact (answering (blit "01")) (peer (blit "01" ++ [CR; LF]) [])
              (blit "01") (lit "01") []
              eq_refl eq_refl eq_refl eq_refl ltac:(first_match_tac) eq_refl eq_refl)
    as (_ & Hno).
  destruct (Hyes eq_refl) as (-> & _).
  destruct (Hno ltac:(intro H; vm_compute in H; discriminate H)) as (_ & ->).
  split; reflexivity.
Defined.


Lemma login_then_command_witness :
  fst ((after_connect ;; run_command (lit "1I")) (opened fresh_device session_peer))
  = Ok (lit "SSP-001").
Proof.
  rewrite (@login_then_command (lit "1I")
             (opened fresh_device session_peer) session_peer
             ([CR; LF] ++ blit "(c) Copyright 2012, Extron Electronics" ++ [CR; LF])
             ([CR; LF] ++ blit "Login Ad") (blit "ministrator" ++ [CR])
             (blit "SSP-001") []
             (blit "extron" ++ [LF]) (blit "1I" ++ [LF])
             ([13; 10]%N ++ lit "Login Ad") (lit "SSP-001")
             eq_refl eq_refl eq_refl eq_refl ltac:(first_match_tac) ltac:(discriminate)
             eq_refl eq_refl eq_refl
             ltac:(intro H; vm_compute in H; discriminate H)
             ltac:(first_match_tac) ltac:(discriminate)
             eq_refl ltac:(first_match_tac) eq_refl eq_refl).
  reflexivity.
Defined.
